(** * The OpenVINO Optimum conversion pass of Olive

    A shallow embedding of [olive/passes/openvino/optimum_intel.py]: the
    configuration validator, the helpers that build quantization
    dictionaries, and [_run_for_config], the dispatcher that picks a
    quantization path, runs a third-party export and packages the files it
    finds in the output directory. *)

From Stdlib Require Import ZArith QArith String Ascii List Bool Lia.
From stdpp Require Import base option gmap strings list fin_maps.
Import ListNotations.

Set Warnings "-register-all".

Local Open Scope string_scope.
Local Open Scope list_scope.

(** ** Python values *)

Module Py.

(** The values that travel through the pass.  Floats are only carried and
    tested for truth, never computed with, so a float is the rational its
    literal denotes.  [VObj] is a handle on an object owned by a third-party
    library (an [OVConfig], a loaded model, a set of preprocessors). *)
Inductive Val : Type :=
| VNone
| VBool (b : bool)
| VInt (z : Z)
| VFloat (q : Q)
| VStr (s : string)
| VList (l : list Val)
| VDict (d : gmap string Val)
| VObj (h : N).

(** A Python [dict] with string keys. *)
Abbreviation Dict := (gmap string Val).

(** [d.get(k)] *)
Definition get (d : Dict) (k : string) : Val := default VNone (d !! k).

(** [d.get(k, dflt)] *)
Definition get_or (d : Dict) (k : string) (dflt : Val) : Val := default dflt (d !! k).

(** [v is None] *)
Definition is_none (v : Val) : bool :=
  match v with VNone => true | _ => false end.

(** [v == s] for a string literal [s]: among the built-in values only an
    equal string compares equal to a string. *)
Definition eq_str (v : Val) (s : string) : bool :=
  match v with VStr t => String.eqb t s | _ => false end.

(** [v in [s1, s2, ...]]: membership in a list of string literals goes by
    [==] on each element. *)
Definition in_strs (v : Val) (l : list string) : bool := existsb (eq_str v) l.

(** [hash(v)] is defined for every built-in value but lists and dicts. *)
Definition hashable (v : Val) : bool :=
  match v with VList _ | VDict _ => false | _ => true end.

(** Truth value of a [dict]. *)
Definition dict_truthy (d : Dict) : bool := negb (bool_decide (d = ∅)).

(** Truth value of a Python value; a library object is true. *)
Definition truthy (v : Val) : bool :=
  match v with
  | VNone => false
  | VBool b => b
  | VInt z => negb (z =? 0)%Z
  | VFloat q => negb (Qeq_bool q 0)
  | VStr s => negb (String.eqb s "")
  | VList l => match l with [] => false | _ => true end
  | VDict d => dict_truthy d
  | VObj _ => true
  end.

(** [a or b] *)
Definition or_ (a b : Val) : Val := if truthy a then a else b.

(** Truth value of an attribute that holds a [dict] or [None]. *)
Definition opt_truthy (o : option Dict) : bool :=
  match o with Some d => dict_truthy d | None => false end.

End Py.
Import Py.

(** ** Configuration of the pass *)

(** Modelled from the spec: the class of the configuration is declared
    outside this file; the spec describes it as a mapping of named options,
    so [config.components] and [config['components']] read the same entry.
    The fields are those of [_default_config]; the user-script entries play
    no part in the pass body and are left out. *)
Record Config := {
  components : option (list string);
  device : Val;
  extra_args : option Dict;
  ov_quant_config : option Dict;
}.

(** ** [validate_config] *)

Definition allowed_libraries : list string :=
  ["transformers"; "diffusers"; "timm"; "sentence_transformers"; "open_clip"].
Definition allowed_frameworks : list string := ["pt"; "tf"].
Definition allowed_weight_formats : list string :=
  ["fp32"; "fp16"; "int8"; "int4"; "mxfp4"; "nf4"].
Definition allowed_quant_modes : list string :=
  ["int8"; "f8e4m3"; "f8e5m2"; "nf4_f8e4m3"; "nf4_f8e5m2"; "int4_f8e4m3"; "int4_f8e5m2"].
Definition allowed_backup_precisions : list string := ["none"; "int8_sym"; "int8_asym"].

(** One guard of the validator:
    [bag and bag.get(key) is not None and bag.get(key) not in allowed]. *)
Definition rejects (bag : option Dict) (key : string) (allowed : list string) : bool :=
  match bag with
  | Some d =>
      dict_truthy d && negb (is_none (get d key)) && negb (in_strs (get d key) allowed)
  | None => false
  end.

(** [validate_config]; [super_ok] is the answer of the base class
    [Pass.validate_config], which lives outside this file.  The logging
    calls have no effect on the result. *)
Definition validate_config (super_ok : bool) (config : Config) : bool :=
  if negb super_ok then false
  else if rejects (extra_args config) "library" allowed_libraries then false
  else if rejects (extra_args config) "framework" allowed_frameworks then false
  else if rejects (ov_quant_config config) "weight_format" allowed_weight_formats then false
  else if rejects (ov_quant_config config) "quant_mode" allowed_quant_modes then false
  else if rejects (ov_quant_config config) "backup_precision" allowed_backup_precisions then false
  else true.

(** ** Builders of quantization dictionaries *)

(** [prep_wc_config(quant_cfg, default_cfg)] *)
Definition prep_wc_config (quant_cfg default_cfg : Dict) : Dict :=
  let is_int8 := eq_str (get quant_cfg "weight_format") "int8" in
  list_to_map [
    ("bits", VInt (if is_int8 then 8 else 4));
    ("ratio", if is_int8 then VFloat 1
              else or_ (get quant_cfg "ratio") (get default_cfg "ratio"));
    ("sym", get_or quant_cfg "sym" (VBool false));
    ("group_size", if is_int8 then VInt (-1) else get quant_cfg "group_size");
    ("all_layers", if is_int8 then VNone else get_or quant_cfg "all_layers" (VBool false));
    ("dataset", get quant_cfg "dataset");
    ("num_samples", get quant_cfg "num_samples");
    ("quant_method", if truthy (get_or quant_cfg "awq" (VBool false))
                     then VStr "awq" else VStr "default");
    ("sensitivity_metric", get quant_cfg "sensitivity_metric");
    ("scale_estimation", get_or quant_cfg "scale_estimation" VNone);
    ("gptq", get_or quant_cfg "gptq" VNone);
    ("lora_correction", get_or quant_cfg "lora_correction" VNone);
    ("dtype", get quant_cfg "weight_format");
    ("backup_precision", get quant_cfg "backup_precision")
  ].

(** [prep_q_config(quant_cfg)] *)
Definition prep_q_config (quant_cfg : Dict) : Dict :=
  list_to_map [
    ("dtype", get quant_cfg "quant_mode");
    ("bits", VInt 8);
    ("sym", get_or quant_cfg "sym" (VBool false));
    ("dataset", get quant_cfg "dataset");
    ("num_samples", get quant_cfg "num_samples");
    ("smooth_quant_alpha", get quant_cfg "smooth_quant_alpha");
    ("trust_remote_code", get_or quant_cfg "trust_remote_code" (VBool false))
  ].

(** [no_compression_parameter_provided(q_config)] *)
Definition no_compression_parameter_provided (q_config : Dict) : bool :=
  forallb is_none [
    get_or q_config "ratio" VNone;
    get_or q_config "group_size" VNone;
    get_or q_config "sym" VNone;
    get_or q_config "all_layers" VNone;
    get_or q_config "dataset" VNone;
    get_or q_config "num_samples" VNone;
    get_or q_config "awq" VNone;
    get_or q_config "scale_estimation" VNone;
    get_or q_config "gptq" VNone;
    get_or q_config "lora_correction" VNone;
    get_or q_config "sensitivity_metric" VNone;
    get_or q_config "backup_precision" VNone
  ].

(** [no_quantization_parameter_provided(q_config)] *)
Definition no_quantization_parameter_provided (q_config : Dict) : bool :=
  forallb is_none [
    get_or q_config "sym" VNone;
    get_or q_config "dataset" VNone;
    get_or q_config "num_samples" VNone;
    get_or q_config "smooth_quant_alpha" VNone
  ].


(** ** Strings and paths *)

(** [sub in s] on strings *)
Fixpoint contains (sub s : string) : bool :=
  String.prefix sub s ||
  match s with
  | EmptyString => false
  | String _ s' => contains sub s'
  end.

(** [s.split(sep)] for a one-character separator *)
Fixpoint split (sep : ascii) (s : string) : list string :=
  match s with
  | EmptyString => [""]
  | String c s' =>
      if Ascii.eqb c sep then "" :: split sep s'
      else match split sep s' with
           | h :: t => String c h :: t
           | [] => [String c ""]
           end
  end.

(** [s.rfind(c)]: the index of the last [c] in [s] *)
Fixpoint rfind (c : ascii) (s : string) : option nat :=
  match s with
  | EmptyString => None
  | String a s' =>
      match rfind c s' with
      | Some i => Some (S i)
      | None => if Ascii.eqb a c then Some 0%nat else None
      end
  end.

(** Where [pathlib] cuts a file name into stem and suffix: at the last dot,
    unless that dot is the first or the last character. *)
Definition cut (name : string) : option nat :=
  match rfind "." name with
  | Some i => if ((0 <? i) && (i <? String.length name - 1))%nat then Some i else None
  | None => None
  end.

(** [PurePath.suffix] of a directory entry *)
Definition suffix (name : string) : string :=
  match cut name with
  | Some i => String.substring i (String.length name - i)%nat name
  | None => ""
  end.

(** [PurePath.stem] of a directory entry *)
Definition stem (name : string) : string :=
  match cut name with
  | Some i => String.substring 0%nat i name
  | None => name
  end.

(** ** Models and handlers *)

(** [model.load_kwargs], when it is not [None] *)
Record HfLoadKwargs := { trust_remote_code : Val }.

(** The input model, as far as the pass reads it. *)
Record HfModelHandler := {
  model_name_or_path : string;
  load_kwargs : option HfLoadKwargs;
  model_attributes : Val;
}.

(** Modelled from the spec: the handler classes are declared outside this
    file; a handler is a reference to the output directory, a composite
    handler a named, ordered collection of such references.
    [model_attributes] is [None] when the constructor is not given it. *)
Record OpenVINOModelHandler := {
  model_path : string;
  ov_model_attributes : Val;
}.

Inductive ModelHandler : Type :=
| SingleModelHandler (h : OpenVINOModelHandler)
| CompositeModelHandler (model_components : list OpenVINOModelHandler)
                        (model_component_names : list string).

(** [self.args], which the mixed-precision branch reads. *)
Record PassArgs := {
  args_num_samples : Val;
  args_dataset : Val;
  args_trust_remote_code : Val;
}.

(** ** Exceptions *)

(** An error message: the literal pieces of the format string and the
    values put between them, left unrendered. *)
Inductive Piece : Type :=
| Lit (s : string)
| Fmt (v : Val).

Abbreviation Msg := (list Piece).

Inductive Exn : Type :=
| ValueError (m : Msg)
| NotImplementedError (m : Msg)
| AssertionError (m : Msg)
| TypeError (m : Msg)
| KeyError (k : string)
| AttributeError (m : Msg)
| LibraryError (e : Val).

Inductive Outcome (A : Type) : Type :=
| Returned (a : A)
| Raised (e : Exn).
Arguments Returned {A} a.
Arguments Raised {A} e.

(** ** Calls into third-party code *)

Inductive ModelCls : Type :=
| OVLatentConsistencyModelPipeline
| OVStableDiffusionXLPipeline
| OVStableDiffusionPipeline
| OVStableDiffusion3Pipeline
| OVFluxPipeline
| OVSanaPipeline
| OVModelForCausalLM
| OVModelForVisualCausalLM
| OVModelForSpeechSeq2Seq.

(** Every call that leaves this file, indexed by the type of its answer.
    Keyword arguments are a [Dict]. *)
Inductive Ext : Type -> Type :=
| infer_library_from_model_name_or_path (name : string) : Ext string
| get_default_int4_config (name : string) : Ext Dict
| OVConfig (kwargs : Dict) : Ext Val
| getattr (obj : Val) (attr : string) : Ext Val
| infer_task (task : Val) (name : string) (library_name : Val) : Ext string
| DiffusionPipeline_load_config (name : string) : Ext Dict
| from_pretrained (cls : ModelCls) (name : string) (kwargs : Dict) : Ext Val
| save_pretrained (output_model : Val) (path : string) : Ext unit
| maybe_convert_tokenizers (library_name : Val) (path : string)
    (model : option HfModelHandler) (preprocessors : option Val) (task : string) : Ext unit
| maybe_load_preprocessors (name : string) (trust : Val) : Ext Val
| save_preprocessors (preprocessors config : Val) (path : string) (trust : Val) : Ext unit
| export_optimum_intel (name path : string) (kwargs : Dict) : Ext unit
| iterdir (path : string) : Ext (list string).

Inductive Event : Type :=
| Called {T : Type} (c : Ext T).

(** The calls that export a model or write it to the output directory. *)
Definition is_export (e : Event) : bool :=
  match e with
  | Called c =>
      match c with
      | from_pretrained _ _ _ | save_pretrained _ _ | export_optimum_intel _ _ _ => true
      | _ => false
      end
  end.

(** The third-party side of a run: what each call answers in a world [W]
    (file system, model hub, library state) and how it changes the world,
    and the two constants the pass imports. *)
Record Libs (W : Type) := {
  answer : forall T, Ext T -> W -> Outcome T * W;
  _DEFAULT_4BIT_CONFIG : Dict;
  HUGGINGFACE_HUB_CACHE : Val;
}.
Arguments answer {W} _ {T} _ _.
Arguments _DEFAULT_4BIT_CONFIG {W} _.
Arguments HUGGINGFACE_HUB_CACHE {W} _.

(** ** The monad of the pass: a world, a log of calls, exceptions *)

Record State (W : Type) := { world : W; trace : list Event }.
Arguments world {W} _.
Arguments trace {W} _.

Definition M (W A : Type) : Type := State W -> Outcome A * State W.

#[export] Instance M_ret {W} : MRet (M W) := fun A a st => (Returned a, st).

#[export] Instance M_bind {W} : MBind (M W) := fun A B f m st =>
  match m st with
  | (Returned a, st') => f a st'
  | (Raised e, st') => (Raised e, st')
  end.

Definition raise {W A} (e : Exn) : M W A := fun st => (Raised e, st).

(** A call is logged, then answered by the library. *)
Definition call {W T} (L : Libs W) (c : Ext T) : M W T := fun st =>
  let (r, w') := answer L c (world st) in
  (r, {| world := w'; trace := trace st ++ [Called c] |}).

(** [d[k]] *)
Definition getitem {W} (d : Dict) (k : string) : M W Val :=
  match d !! k with
  | Some v => mret v
  | None => raise (KeyError k)
  end.

(** ** [_run_for_config] *)

Definition compression_without_weight_format : Msg :=
  [Lit ("Some compression parameters are provided, but the weight format is not specified. "
        ++ "Please provide it with weight_format key in ov_quant_config dictionary.")].

Definition quantization_without_quant_mode : Msg :=
  [Lit ("Some quantization parameters are provided, but the quant mode is not specified. "
        ++ "Please provide it with quant_mode key in ov_quant_config dictionary.")].

Definition dataset_required : Msg :=
  [Lit ("Dataset is required for full quantization. "
        ++ "Please provide it in ov_quant_config dictionary under 'dataset' key")].

Definition mixed_precision_diffusers : Msg :=
  [Lit "Mixed precision quantization isn't supported for diffusers."].

Definition mixed_quant_modes : list string :=
  ["nf4_f8e4m3"; "nf4_f8e5m2"; "int4_f8e4m3"; "int4_f8e5m2"].

(** The message of the assertion on the exported components. *)
Definition components_not_exported (requested exported : list string) : Msg :=
  [Lit "Components "; Fmt (VList (VStr <$> requested));
   Lit " are not exported. Only "; Fmt (VList (VStr <$> exported));
   Lit " are exported."].

(** The loop that fills [model_components] and [model_component_names]. *)
Fixpoint collect_components (output_model_path : string) (attributes : Val)
    (components : list string)
    (model_components : list OpenVINOModelHandler) (model_component_names : list string)
    : list OpenVINOModelHandler * list string :=
  match components with
  | [] => (model_components, model_component_names)
  | component_name :: rest =>
      collect_components output_model_path attributes rest
        (model_components ++
           [{| model_path := output_model_path; ov_model_attributes := attributes |}])
        (model_component_names ++ [component_name])
  end.

(** [[name.stem for name in entries if name.suffix == ".xml"]] *)
Definition exported_models (entries : list string) : list string :=
  stem <$> filter (fun name => suffix name = ".xml") entries.

(** [components = config.components or exported_models] *)
Definition returned_components (config : Config) (exported : list string) : list string :=
  match components config with
  | Some (c :: cs) => c :: cs
  | _ => exported
  end.

Section Pass.
Context {W : Type} (L : Libs W).

(** Lines 149-157: the keyword arguments of the export. *)
Definition prepare_extra_args (model : HfModelHandler) (config : Config) : Dict :=
  let extra_args :=
    match extra_args config with
    | Some d => if dict_truthy d then d else ∅
    | None => ∅
    end in
  let extra_args := <["device" := device config]> extra_args in
  match load_kwargs model, extra_args !! "trust_remote_code" with
  | Some kw, None => <["trust_remote_code" := trust_remote_code kw]> extra_args
  | _, _ => extra_args
  end.

(** Lines 159-171: the library name, given or inferred. *)
Definition resolve_lib_name (model : HfModelHandler) (extra_args : Dict) : M W Val :=
  if is_none (get extra_args "library") then
    lib_name ← call L (infer_library_from_model_name_or_path (model_name_or_path model));
    if String.eqb lib_name "sentence_transformers" then mret (VStr "transformers")
    else mret (VStr lib_name)
  else getitem extra_args "library".

(** [wc_dtype, q_dtype = quant_mode.split("_")] *)
Definition split_quant_mode (quant_mode : Val) : M W (string * string) :=
  match quant_mode with
  | VStr s =>
      match split "_" s with
      | [wc_dtype; q_dtype] => mret (wc_dtype, q_dtype)
      | _ => raise (ValueError [Lit "wrong number of values to unpack"])
      end
  | _ => raise (AttributeError [Lit "object has no attribute 'split'"])
  end.

(** Lines 189-200: weight-only compression. *)
Definition weight_compression (model : HfModelHandler) (q : Dict) : M W Val :=
  quant_config ←
    (if no_compression_parameter_provided q && eq_str (get q "weight_format") "int4"
     then call L (get_default_int4_config (model_name_or_path model))
     else mret (prep_wc_config q (_DEFAULT_4BIT_CONFIG L)));
  let quant_config :=
    if negb (is_none (get_or quant_config "dataset" VNone))
    then <["trust_remote_code" := get_or q "trust_remote_code" (VBool false)]> quant_config
    else quant_config in
  call L (OVConfig {[ "quantization_config" := VDict quant_config ]}).

(** Lines 201-231: full and mixed-precision quantization. *)
Definition full_quantization (self_args : option PassArgs) (lib_name : Val) (q : Dict)
    : M W Val :=
  if is_none (get_or q "dataset" VNone) then raise (ValueError dataset_required)
  else if in_strs (get q "quant_mode") mixed_quant_modes then
    if eq_str lib_name "diffusers" then raise (NotImplementedError mixed_precision_diffusers)
    else
      let wc_config := prep_wc_config q (_DEFAULT_4BIT_CONFIG L) in
      quant_mode ← getitem q "quant_mode";
      '(wc_dtype, q_dtype) ← split_quant_mode quant_mode;
      let wc_config := <["dtype" := VStr wc_dtype]> wc_config in
      let q_config := prep_q_config q in
      let q_config := <["dtype" := VStr q_dtype]> q_config in
      match self_args with
      | None => raise (AttributeError [Lit "object has no attribute 'args'"])
      | Some args =>
          let quant_config : Dict := list_to_map [
            ("weight_quantization_config", VDict wc_config);
            ("full_quantization_config", VDict q_config);
            ("num_samples", args_num_samples args);
            ("dataset", args_dataset args);
            ("trust_remote_code", args_trust_remote_code args)
          ] in
          call L (OVConfig {[ "quantization_config" := VDict quant_config ]})
      end
  else call L (OVConfig {[ "quantization_config" := VDict (prep_q_config q) ]}).

(** Lines 173-233: the quantization path; the result is [ov_config]. *)
Definition select_ov_config (self_args : option PassArgs) (model : HfModelHandler)
    (config : Config) (lib_name : Val) : M W Val :=
  match ov_quant_config config with
  | None => mret VNone
  | Some q =>
      if negb (dict_truthy q) then mret VNone
      else if is_none (get q "weight_format") && is_none (get q "quant_mode") then
        if negb (no_compression_parameter_provided q)
        then raise (ValueError compression_without_weight_format)
        else if no_quantization_parameter_provided q
        then raise (ValueError quantization_without_quant_mode)
        else mret VNone
      else if negb (hashable (get q "weight_format"))
      then raise (TypeError [Lit "unhashable type"])
      else if in_strs (get q "weight_format") ["fp16"; "fp32"] then
        weight_format ← getitem q "weight_format";
        call L (OVConfig {[ "dtype" := weight_format ]})
      else if negb (is_none (get q "weight_format")) then weight_compression model q
      else full_quantization self_args lib_name q
  end.

(** Lines 247-273: the pipeline class of a diffusers model. *)
Definition diffusers_model_cls (class_name : Val) : M W ModelCls :=
  if eq_str class_name "LatentConsistencyModelPipeline"
  then mret OVLatentConsistencyModelPipeline
  else if eq_str class_name "StableDiffusionXLPipeline" then mret OVStableDiffusionXLPipeline
  else if eq_str class_name "StableDiffusionPipeline" then mret OVStableDiffusionPipeline
  else if eq_str class_name "StableDiffusion3Pipeline" then mret OVStableDiffusion3Pipeline
  else if eq_str class_name "FluxPipeline" then mret OVFluxPipeline
  else if eq_str class_name "SanaPipeline" then mret OVSanaPipeline
  else raise (NotImplementedError
                [Lit "Quantization isn't supported for class "; Fmt class_name; Lit "."]).

(** Lines 284-295: the model class of a task. *)
Definition task_model_cls (task : string) : ModelCls :=
  if String.prefix "text-generation" task then OVModelForCausalLM
  else if String.eqb task "image-text-to-text" then OVModelForVisualCausalLM
  else OVModelForSpeechSeq2Seq.

(** Lines 235-330: the export itself, along one of three routes. *)
Definition export_model (model : HfModelHandler) (extra_args : Dict) (lib_name ov_config : Val)
    (output_model_path : string) : M W unit :=
  let name := model_name_or_path model in
  quant_config ←
    (if truthy ov_config then call L (getattr ov_config "quantization_config")
     else mret VNone);
  quantize_with_dataset ←
    (if truthy quant_config
     then dataset ← call L (getattr quant_config "dataset"); mret (negb (is_none dataset))
     else mret false);
  task ← call L (infer_task (get_or extra_args "task" (VStr "auto")) name lib_name);
  if eq_str lib_name "diffusers" && quantize_with_dataset then
    diffusers_config ← call L (DiffusionPipeline_load_config name);
    let class_name := get_or diffusers_config "_class_name" VNone in
    model_cls ← diffusers_model_cls class_name;
    output_model ← call L (from_pretrained model_cls name
      (list_to_map [("export", VBool true); ("quantization_config", quant_config)]));
    call L (save_pretrained output_model output_model_path);;
    if negb (truthy (get_or extra_args "disable_convert_tokenizer" (VBool false)))
    then call L (maybe_convert_tokenizers lib_name output_model_path (Some model) None task)
    else mret tt
  else if (quantize_with_dataset &&
             (String.prefix "text-generation" task
              || contains "automatic-speech-recognition" task))
          || (String.eqb task "image-text-to-text" && negb (is_none quant_config)) then
    let model_cls := task_model_cls task in
    output_model ← call L (from_pretrained model_cls name
      (list_to_map [
         ("export", VBool true);
         ("quantization_config", quant_config);
         ("stateful", VBool (negb (truthy (get_or extra_args "disable_stateful" (VBool false)))));
         ("trust_remote_code", get_or extra_args "trust_remote_code" (VBool false));
         ("variant", get_or extra_args "variant" VNone);
         ("cache_dir", get_or extra_args "cache_dir" (HUGGINGFACE_HUB_CACHE L))]));
    call L (save_pretrained output_model output_model_path);;
    preprocessors ← call L (maybe_load_preprocessors name
                              (get_or extra_args "trust_remote_code" (VBool false)));
    output_model_config ← call L (getattr output_model "config");
    call L (save_preprocessors preprocessors output_model_config output_model_path
              (get_or extra_args "trust_remote_code" (VBool false)));;
    if negb (truthy (get_or extra_args "disable_convert_tokenizer" (VBool false)))
    then call L (maybe_convert_tokenizers lib_name output_model_path None
                   (Some preprocessors) task)
    else mret tt
  else
    let extra_args := <["ov_config" := ov_config]> extra_args in
    let extra_args :=
      <["stateful" := VBool (negb (truthy (get_or extra_args "disable_stateful" (VBool false))))]>
        extra_args in
    let extra_args := delete "disable_stateful" extra_args in
    let extra_args :=
      <["convert_tokenizer" :=
          VBool (negb (truthy (get_or extra_args "disable_convert_tokenizer" (VBool false))))]>
        extra_args in
    let extra_args := delete "disable_convert_tokenizer" extra_args in
    let extra_args := <["library_name" := lib_name]> extra_args in
    let extra_args := delete "library" extra_args in
    call L (export_optimum_intel name output_model_path extra_args).

(** Lines 149-330: everything up to and including the export. *)
Definition convert (self_args : option PassArgs) (model : HfModelHandler) (config : Config)
    (output_model_path : string) : M W unit :=
  let extra_args := prepare_extra_args model config in
  lib_name ← resolve_lib_name model extra_args;
  ov_config ← select_ov_config self_args model config lib_name;
  export_model model extra_args lib_name ov_config output_model_path.

(** Lines 332-360: check the exported components and wrap them. *)
Definition package (model : HfModelHandler) (config : Config) (output_model_path : string)
    : M W ModelHandler :=
  entries ← call L (iterdir output_model_path);
  let exported_models := exported_models entries in
  (match components config with
   | Some (c :: cs) =>
       if forallb (fun component => bool_decide (component ∈ exported_models)) (c :: cs)
       then mret tt
       else raise (AssertionError (components_not_exported (c :: cs) exported_models))
   | _ => mret tt
   end);;
  let components := returned_components config exported_models in
  if (length components =? 1)%nat then
    mret (SingleModelHandler
            {| model_path := output_model_path; ov_model_attributes := VNone |})
  else
    let '(model_components, model_component_names) :=
      collect_components output_model_path (model_attributes model) components [] [] in
    mret (CompositeModelHandler model_components model_component_names).

(** [_run_for_config(self, model, config, output_model_path)].  The imports
    at the head of the function are taken to succeed and the logging calls
    are dropped. *)
Definition _run_for_config (self_args : option PassArgs) (model : HfModelHandler)
    (config : Config) (output_model_path : string) : M W ModelHandler :=
  convert self_args model config output_model_path;;
  package model config output_model_path.
End Pass.

(** A run starts with an empty log. *)
Definition start {W} (w : W) : State W := {| world := w; trace := [] |}.

(** No export has been attempted in a state. *)
Definition no_export_attempt {W} (st : State W) : Prop :=
  Forall (fun e => is_export e = false) (trace st).

(** ** Reading the specification *)

(** A configuration field of a bag that may be unset. *)
Definition field (bag : option Dict) (key : string) : Val :=
  match bag with
  | Some d => get d key
  | None => VNone
  end.

(** An enum field is fine when it is unset or holds an allowed name. *)
Definition unset_or_allowed (v : Val) (allowed : list string) : Prop :=
  v = VNone \/ exists s, v = VStr s /\ In s allowed.

(** The five enum fields of a configuration bag are all fine. *)
Definition enum_fields_valid (config : Config) : Prop :=
  unset_or_allowed (field (extra_args config) "library") allowed_libraries /\
  unset_or_allowed (field (extra_args config) "framework") allowed_frameworks /\
  unset_or_allowed (field (ov_quant_config config) "weight_format") allowed_weight_formats /\
  unset_or_allowed (field (ov_quant_config config) "quant_mode") allowed_quant_modes /\
  unset_or_allowed (field (ov_quant_config config) "backup_precision")
    allowed_backup_precisions.

(** The parameters that shape weight compression. *)
Definition compression_parameters : list string :=
  ["ratio"; "group_size"; "sym"; "all_layers"; "dataset"; "num_samples"; "awq";
   "scale_estimation"; "gptq"; "lora_correction"; "sensitivity_metric"; "backup_precision"].

(** The parameters that shape full quantization. *)
Definition quantization_parameters : list string :=
  ["sym"; "dataset"; "num_samples"; "smooth_quant_alpha"].

(** A dictionary provides a key when it maps it to something other than
    [None]. *)
Definition provides (q : Dict) (key : string) : Prop := get q key <> VNone.

(** A message contains a piece of text. *)
Definition mentions (text : string) (m : Msg) : bool :=
  existsb (fun p => match p with Lit s => contains text s | Fmt _ => false end) m.


(** The entries of the output directory that carry the model-file
    extension. *)
Definition xml_files (entries : list string) : list string :=
  filter (fun name => suffix name = ".xml") entries.

(** A run whose output directory holds [entries] yields the components
    [cs]: the requested ones when they were all exported, the exported ones
    when none was requested. *)
Definition yields (config : Config) (entries : list string) (cs : list string) : Prop :=
  match components config with
  | Some (c :: l) => cs = c :: l /\ Forall (fun x => x ∈ exported_models entries) cs
  | _ => cs = exported_models entries
  end.

(** ** A small world to run the pass in *)

Module Demo.

(** The world: the content of the output directory, and the
    [quantization_config] argument of the last [OVConfig] built. *)
Record World := { dir : list string; ov_quantization : Val }.

Definition empty : World := {| dir := []; ov_quantization := VNone |}.

(** Reading an attribute: object 1 is the [OVConfig], object 4 its
    quantization configuration, which shows the dataset it was built with. *)
Definition attribute (w : World) (obj : Val) (attr : string) : Val :=
  match obj with
  | VObj 1 =>
      if String.eqb attr "quantization_config" && negb (is_none (ov_quantization w))
      then VObj 4 else VNone
  | VObj 4 =>
      if String.eqb attr "dataset"
      then match ov_quantization w with VDict d => get d "dataset" | _ => VNone end
      else VNone
  | _ => VNone
  end.

(** The library is [lib], the task is text generation, every export leaves
    [files] in the output directory. *)
Definition answers (lib : string) (files : list string)
    : forall T, Ext T -> World -> Outcome T * World :=
  fun T c w =>
    let written := {| dir := files; ov_quantization := ov_quantization w |} in
    match c in Ext T return Outcome T * World with
    | infer_library_from_model_name_or_path _ => (Returned lib, w)
    | get_default_int4_config _ => (Returned {[ "bits" := VInt 4 ]}, w)
    | OVConfig kwargs =>
        (Returned (VObj 1),
         {| dir := dir w; ov_quantization := get kwargs "quantization_config" |})
    | getattr obj attr => (Returned (attribute w obj attr), w)
    | infer_task _ _ _ => (Returned "text-generation", w)
    | DiffusionPipeline_load_config _ => (Returned ∅, w)
    | from_pretrained _ _ _ => (Returned (VObj 2), w)
    | save_pretrained _ _ => (Returned tt, written)
    | maybe_convert_tokenizers _ _ _ _ _ => (Returned tt, w)
    | maybe_load_preprocessors _ _ => (Returned (VObj 3), w)
    | save_preprocessors _ _ _ _ => (Returned tt, w)
    | export_optimum_intel _ _ _ => (Returned tt, written)
    | iterdir _ => (Returned (dir w), w)
    end.

Definition libs (lib : string) (files : list string) : Libs World :=
  {| answer := answers lib files;
     _DEFAULT_4BIT_CONFIG := {[ "bits" := VInt 4; "ratio" := VFloat 1 ]};
     HUGGINGFACE_HUB_CACHE := VStr "~/.cache/huggingface/hub" |}.

Definition model : HfModelHandler :=
  {| model_name_or_path := "gpt2"; load_kwargs := None; model_attributes := VNone |}.

(** A configuration with the given components and quantization dictionary. *)
Definition config (cs : option (list string)) (q : option Dict) : Config :=
  {| components := cs; device := VStr "cpu"; extra_args := None; ov_quant_config := q |}.

(** Dictionaries used in the examples. *)
Definition int8_with_ratio : Dict :=
  {[ "weight_format" := VStr "int8"; "ratio" := VFloat (4 # 5); "group_size" := VInt 128 ]}.
Definition int4_only : Dict := {[ "weight_format" := VStr "int4" ]}.
Definition mixed_only : Dict := {[ "quant_mode" := VStr "nf4_f8e4m3" ]}.
Definition mixed_with_dataset : Dict :=
  {[ "quant_mode" := VStr "nf4_f8e4m3"; "dataset" := VStr "wikitext2" ]}.
Definition ratio_only : Dict := {[ "ratio" := VFloat (4 # 5) ]}.
Definition ratio_with_mode : Dict :=
  {[ "ratio" := VFloat (4 # 5); "quant_mode" := VStr "int8"; "dataset" := VStr "wikitext2" ]}.
Definition alpha_only : Dict := {[ "smooth_quant_alpha" := VFloat (1 # 2) ]}.
Definition trust_only : Dict := {[ "trust_remote_code" := VBool true ]}.
Definition mode_only : Dict := {[ "quant_mode" := VStr "int8" ]}.
Definition mode_with_ratio : Dict :=
  {[ "quant_mode" := VStr "int8"; "ratio" := VFloat (4 # 5) ]}.
Definition int4_zero_ratio : Dict :=
  {[ "weight_format" := VStr "int4"; "ratio" := VFloat 0 ]}.
Definition int4_with_ratio : Dict :=
  {[ "weight_format" := VStr "int4"; "ratio" := VFloat (4 # 5) ]}.
Definition fp16_with_ratio : Dict :=
  {[ "weight_format" := VStr "fp16"; "ratio" := VFloat (4 # 5) ]}.
Definition int8_with_ratio_and_mode : Dict :=
  {[ "weight_format" := VStr "int8"; "ratio" := VFloat (4 # 5); "group_size" := VInt 128;
     "quant_mode" := VStr "f8e4m3"; "smooth_quant_alpha" := VFloat (1 # 2) ]}.
Definition alpha_and_trust : Dict :=
  {[ "smooth_quant_alpha" := VFloat (1 # 2); "trust_remote_code" := VBool true ]}.

(** A model whose loading arguments trust remote code. *)
Definition trusting_model : HfModelHandler :=
  {| model_name_or_path := "gpt2";
     load_kwargs := Some {| trust_remote_code := VBool true |};
     model_attributes := VNone |}.

(** A configuration with extra arguments only. *)
Definition config_extra (e : Dict) : Config :=
  {| components := None; device := VStr "cpu"; extra_args := Some e; ov_quant_config := None |}.

Definition extra_device_gpu : Dict :=
  {[ "device" := VStr "gpu"; "trust_remote_code" := VNone; "task" := VStr "text-generation" ]}.
Definition extra_library_st : Dict := {[ "library" := VStr "sentence_transformers" ]}.
Definition extra_stateful : Dict :=
  {[ "stateful" := VBool true; "disable_stateful" := VBool true; "task" := VStr "auto" ]}.

(** A world in which an [OVConfig] was built with a dataset. *)
Definition quantizing : World :=
  {| dir := []; ov_quantization := VDict {[ "dataset" := VStr "wikitext2" ]} |}.

(** The state of a run that stopped right after inferring the library. *)
Definition after_inference : State World :=
  {| world := empty; trace := [Called (infer_library_from_model_name_or_path "gpt2")] |}.

(** What a plain export leaves in the output directory. *)
Definition one_model : list string := ["openvino_model.xml"; "openvino_model.bin"].
Definition two_models : list string :=
  ["decoder_model.xml"; "decoder_model.bin";
   "decoder_with_past_model.xml"; "decoder_with_past_model.bin"].

End Demo.

(** ** Parts of the pass, named *)

(** Lines 319-325: the keyword arguments the generic export is called
    with. *)
Definition generic_export_kwargs (extra_args : Dict) (lib_name ov_config : Val) : Dict :=
  let extra_args := <["ov_config" := ov_config]> extra_args in
  let extra_args :=
    <["stateful" := VBool (negb (truthy (get_or extra_args "disable_stateful" (VBool false))))]>
      extra_args in
  let extra_args := delete "disable_stateful" extra_args in
  let extra_args :=
    <["convert_tokenizer" :=
        VBool (negb (truthy (get_or extra_args "disable_convert_tokenizer" (VBool false))))]>
      extra_args in
  let extra_args := delete "disable_convert_tokenizer" extra_args in
  let extra_args := <["library_name" := lib_name]> extra_args in
  delete "library" extra_args.

(** The keys of the dictionary literal of [prep_wc_config]. *)
Definition wc_config_keys : list string :=
  ["bits"; "ratio"; "sym"; "group_size"; "all_layers"; "dataset"; "num_samples";
   "quant_method"; "sensitivity_metric"; "scale_estimation"; "gptq"; "lora_correction";
   "dtype"; "backup_precision"].

(** The keys of the dictionary literal of [prep_q_config]. *)
Definition q_config_keys : list string :=
  ["dtype"; "bits"; "sym"; "dataset"; "num_samples"; "smooth_quant_alpha";
   "trust_remote_code"].

(** The keys of the quantization dictionary that [prep_q_config] reads. *)
Definition q_config_inputs : list string :=
  ["quant_mode"; "sym"; "dataset"; "num_samples"; "smooth_quant_alpha"; "trust_remote_code"].

(** The keys of the quantization dictionary that the weight-format paths
    read. *)
Definition weight_path_inputs : list string :=
  "weight_format" :: "trust_remote_code" :: compression_parameters.

(** The pipeline classes the diffusers route knows. *)
Definition diffusers_pipelines : list string :=
  ["LatentConsistencyModelPipeline"; "StableDiffusionXLPipeline"; "StableDiffusionPipeline";
   "StableDiffusion3Pipeline"; "FluxPipeline"; "SanaPipeline"].

(** The call of the generic export function. *)
Definition is_generic_export (e : Event) : bool :=
  match e with
  | Called c => match c with export_optimum_intel _ _ _ => true | _ => false end
  end.

(** The calls that load a model class for export or write the loaded model. *)
Definition is_class_export (e : Event) : bool :=
  match e with
  | Called c =>
      match c with
      | from_pretrained _ _ _ | save_pretrained _ _ => true
      | _ => false
      end
  end.

(** An export call has been logged in a state. *)
Definition export_attempted {W} (st : State W) : Prop :=
  Exists (fun e => is_export e = true) (trace st).

(** What a user wrote under a key of a bag that may be unset. *)
Definition user_entry (bag : option Dict) (key : string) : option Val :=
  match bag with
  | Some d => d !! key
  | None => None
  end.

(** * Properties *)

(** ** Python values and dictionaries *)

Lemma in_strs_true (v : Val) (l : list string) :
  in_strs v l = true <-> exists s, v = VStr s /\ In s l.
Proof.
  unfold in_strs. rewrite existsb_exists. split.
  - intros (s & Hin & Heq). destruct v; simpl in Heq; try discriminate.
    apply String.eqb_eq in Heq. subst. eauto.
  - intros (s & -> & Hin). exists s. split; [assumption|]. simpl. apply String.eqb_refl.
Qed.

Lemma is_none_true (v : Val) : is_none v = true <-> v = VNone.
Proof. destruct v; simpl; split; congruence. Qed.

Lemma is_none_false (v : Val) : is_none v = false <-> v <> VNone.
Proof. destruct v; simpl; split; congruence. Qed.

Lemma get_or_none (d : Dict) (k : string) : get_or d k VNone = get d k.
Proof. reflexivity. Qed.

Lemma get_empty (k : string) : get ∅ k = VNone.
Proof. unfold get. by rewrite lookup_empty. Qed.

Lemma dict_truthy_false (d : Dict) : dict_truthy d = false <-> d = ∅.
Proof.
  unfold dict_truthy. rewrite negb_false_iff. apply bool_decide_eq_true.
Qed.

Lemma provides_truthy (d : Dict) (k : string) : provides d k -> dict_truthy d = true.
Proof.
  intros Hp. destruct (dict_truthy d) eqn:E; [reflexivity|].
  apply dict_truthy_false in E. subst. exfalso. apply Hp. apply get_empty.
Qed.

(** ** Paths *)

Example suffix_xml :
  suffix "decoder_model.xml" = ".xml" /\ stem "decoder_model.xml" = "decoder_model".
Proof. split; reflexivity. Qed.

Example suffix_last_dot : suffix "a.b.xml" = ".xml" /\ stem "a.b.xml" = "a.b".
Proof. split; reflexivity. Qed.

Example suffix_hidden_file : suffix ".xml" = "" /\ stem ".xml" = ".xml".
Proof. split; reflexivity. Qed.

Example exported_models_two :
  exported_models Demo.two_models = ["decoder_model"; "decoder_with_past_model"].
Proof. vm_compute. reflexivity. Qed.

(** ** The validator *)

Lemma rejects_false (bag : option Dict) (key : string) (allowed : list string) :
  rejects bag key allowed = false <-> unset_or_allowed (field bag key) allowed.
Proof.
  unfold rejects, unset_or_allowed, field. destruct bag as [d|]; [|intuition].
  rewrite <- in_strs_true, <- is_none_true.
  destruct (dict_truthy d) eqn:Ed; simpl.
  - destruct (is_none (get d key)), (in_strs (get d key) allowed); simpl; intuition congruence.
  - apply dict_truthy_false in Ed. subst. rewrite get_empty. simpl. intuition.
Qed.

(** C2. When the base class accepts the configuration, [validate_config]
    answers true exactly when each of the five enum fields (library and
    framework of [extra_args]; weight_format, quant_mode and
    backup_precision of [ov_quant_config]) is unset or holds a name of its
    allow-list; an absent key counts as unset. *)
Theorem validate_config_iff (config : Config) :
  validate_config true config = true <-> enum_fields_valid config.
Proof.
  unfold validate_config, enum_fields_valid. simpl.
  rewrite <- !rejects_false.
  destruct (rejects (extra_args config) "library" allowed_libraries),
    (rejects (extra_args config) "framework" allowed_frameworks),
    (rejects (ov_quant_config config) "weight_format" allowed_weight_formats),
    (rejects (ov_quant_config config) "quant_mode" allowed_quant_modes),
    (rejects (ov_quant_config config) "backup_precision" allowed_backup_precisions);
    intuition congruence.
Qed.

(** A configuration the base class turns down is turned down. *)
Lemma validate_config_super (config : Config) : validate_config false config = false.
Proof. reflexivity. Qed.

Example validate_config_unset :
  validate_config true (Demo.config None None) = true.
Proof. reflexivity. Qed.

Example validate_config_bad_weight_format :
  validate_config true (Demo.config None (Some {[ "weight_format" := VStr "int2" ]})) = false.
Proof. vm_compute. reflexivity. Qed.

(** ** The builders *)

(** C3. With weight_format equal to "int8", the dictionary built by
    [prep_wc_config] has bits 8, ratio 1.0 and group_size -1, whatever ratio
    and group_size the input carries. *)
Theorem prep_wc_config_int8 (quant_cfg default_cfg : Dict) :
  get quant_cfg "weight_format" = VStr "int8" ->
  prep_wc_config quant_cfg default_cfg !! "bits" = Some (VInt 8) /\
  prep_wc_config quant_cfg default_cfg !! "ratio" = Some (VFloat 1) /\
  prep_wc_config quant_cfg default_cfg !! "group_size" = Some (VInt (-1)).
Proof.
  intros Hfmt. unfold prep_wc_config. rewrite Hfmt. simpl eq_str. cbv iota.
  repeat split; reflexivity.
Qed.

Lemma prep_wc_config_int8_witness :
  prep_wc_config Demo.int8_with_ratio ∅ !! "bits" = Some (VInt 8) /\
  prep_wc_config Demo.int8_with_ratio ∅ !! "ratio" = Some (VFloat 1) /\
  prep_wc_config Demo.int8_with_ratio ∅ !! "group_size" = Some (VInt (-1)).
Proof. apply (prep_wc_config_int8 Demo.int8_with_ratio ∅). reflexivity. Defined.

Lemma no_compression_parameter_provided_true (q : Dict) :
  no_compression_parameter_provided q = true <->
  forall k, In k compression_parameters -> get q k = VNone.
Proof.
  change (no_compression_parameter_provided q)
    with (forallb (fun k => is_none (get q k)) compression_parameters).
  rewrite forallb_forall. split; intros H k Hk; apply is_none_true, H, Hk.
Qed.

Lemma no_compression_parameter_provided_false (q : Dict) (k : string) :
  In k compression_parameters -> provides q k ->
  no_compression_parameter_provided q = false.
Proof.
  intros Hk Hp. destruct (no_compression_parameter_provided q) eqn:E; [|reflexivity].
  exfalso. apply Hp. by apply no_compression_parameter_provided_true.
Qed.

Lemma no_quantization_parameter_provided_true (q : Dict) :
  no_quantization_parameter_provided q = true <->
  forall k, In k quantization_parameters -> get q k = VNone.
Proof.
  change (no_quantization_parameter_provided q)
    with (forallb (fun k => is_none (get q k)) quantization_parameters).
  rewrite forallb_forall. split; intros H k Hk; apply is_none_true, H, Hk.
Qed.

(** ** The log of calls *)

Ltac run := unfold mbind, M_bind, mret, M_ret, raise, call.

Lemma no_export_attempt_start {W} (w : W) : no_export_attempt (start w).
Proof. constructor. Qed.

Lemma no_export_attempt_forallb {W} (st : State W) :
  no_export_attempt st <-> forallb (fun e => negb (is_export e)) (trace st) = true.
Proof.
  unfold no_export_attempt. rewrite forallb_forall, Forall_forall.
  split; intros H e He.
  - apply list_elem_of_In in He. by rewrite (H e He).
  - apply list_elem_of_In in He. specialize (H e He). by destruct (is_export e).
Qed.

(** Resolving the library name makes no export call. *)
Lemma resolve_lib_name_no_export {W} (L : Libs W) model extra_args st r st1 :
  resolve_lib_name L model extra_args st = (r, st1) ->
  no_export_attempt st -> no_export_attempt st1.
Proof.
  unfold resolve_lib_name, getitem, no_export_attempt. run.
  destruct (is_none (get extra_args "library")).
  - destruct (answer L _ (world st)) as [[lib|e] w'].
    + destruct (String.eqb lib "sentence_transformers"); intros [= <- <-] Hst; simpl;
        (apply Forall_app; split; [assumption|repeat constructor]).
    + intros [= <- <-] Hst; simpl. apply Forall_app; split; [assumption|repeat constructor].
  - destruct (extra_args !! "library"); intros [= <- <-] Hst; assumption.
Qed.

(** ** The quantization path *)

(** C4. With weight_format "int4" and none of the compression-shaping
    parameters provided, the weight-only path asks the library for the
    model's default int4 configuration ([get_default_int4_config]) and hands
    that to [OVConfig]; [prep_wc_config] plays no part. *)
Theorem int4_without_parameters_default {W} (L : Libs W) self_args model config lib_name
    (q : Dict) (st : State W) :
  ov_quant_config config = Some q ->
  get q "weight_format" = VStr "int4" ->
  (forall k, In k compression_parameters -> get q k = VNone) ->
  select_ov_config L self_args model config lib_name st =
    (quant_config ← call L (get_default_int4_config (model_name_or_path model));
     call L (OVConfig {[ "quantization_config" := VDict
       (if negb (is_none (get quant_config "dataset"))
        then <["trust_remote_code" := get_or q "trust_remote_code" (VBool false)]> quant_config
        else quant_config) ]})) st.
Proof.
  intros Hq Hfmt Hnone. unfold select_ov_config. rewrite Hq.
  assert (Ht : dict_truthy q = true).
  { apply (provides_truthy q "weight_format"). unfold provides. rewrite Hfmt. discriminate. }
  rewrite Ht, Hfmt. simpl. unfold weight_compression.
  apply no_compression_parameter_provided_true in Hnone. rewrite Hnone, Hfmt. reflexivity.
Qed.

Lemma int4_without_parameters_default_witness :
  select_ov_config (Demo.libs "transformers" Demo.one_model) None Demo.model
    (Demo.config None (Some Demo.int4_only)) (VStr "transformers") (start Demo.empty) =
  (Returned (VObj 1),
   {| world := {| Demo.dir := [];
                  Demo.ov_quantization := VDict {[ "bits" := VInt 4 ]} |};
      trace := [Called (get_default_int4_config "gpt2");
                Called (OVConfig {[ "quantization_config" := VDict {[ "bits" := VInt 4 ]} ]})] |}).
Proof.
  rewrite (int4_without_parameters_default _ _ _ _ _ Demo.int4_only).
  - reflexivity.
  - reflexivity.
  - reflexivity.
  - intros k Hk. simpl in Hk.
    repeat (destruct Hk as [<-|Hk]; [reflexivity|]). destruct Hk.
Defined.

(** What the pass does once the library name is known and the quantization
    path raises: it stops there. *)
Lemma run_select_raises {W} (L : Libs W) self_args model config out st lib_name st1 e :
  resolve_lib_name L model (prepare_extra_args model config) st = (Returned lib_name, st1) ->
  select_ov_config L self_args model config lib_name st1 = (Raised e, st1) ->
  _run_for_config L self_args model config out st = (Raised e, st1).
Proof.
  intros Hlib Hsel. unfold _run_for_config, convert. run. by rewrite Hlib, Hsel.
Qed.

(** C5, amended. When quant_mode is "nf4_f8e4m3", weight_format is unset, a
    dataset is provided and the library name is "diffusers", the pass fails
    with the not-implemented error of mixed precision, and no export call
    has been made. *)
Theorem mixed_precision_diffusers_not_implemented {W} (L : Libs W) self_args model config out
    (q : Dict) (w : W) (st1 : State W) :
  ov_quant_config config = Some q ->
  get q "weight_format" = VNone ->
  get q "quant_mode" = VStr "nf4_f8e4m3" ->
  provides q "dataset" ->
  resolve_lib_name L model (prepare_extra_args model config) (start w)
    = (Returned (VStr "diffusers"), st1) ->
  _run_for_config L self_args model config out (start w)
    = (Raised (NotImplementedError mixed_precision_diffusers), st1)
  /\ no_export_attempt st1.
Proof.
  intros Hq Hfmt Hmode Hdata Hlib. split.
  - apply (run_select_raises _ _ _ _ _ _ _ _ _ Hlib).
    unfold select_ov_config. rewrite Hq.
    rewrite (provides_truthy q "dataset" Hdata), Hfmt, Hmode. simpl.
    unfold full_quantization. apply is_none_false in Hdata.
    rewrite get_or_none, Hdata, Hmode. reflexivity.
  - eapply resolve_lib_name_no_export; [exact Hlib|apply no_export_attempt_start].
Qed.

Lemma mixed_precision_diffusers_not_implemented_witness :
  _run_for_config (Demo.libs "diffusers" Demo.one_model) None Demo.model
    (Demo.config None (Some Demo.mixed_with_dataset)) "out" (start Demo.empty)
  = (Raised (NotImplementedError mixed_precision_diffusers),
     Demo.after_inference)
  /\ no_export_attempt
       Demo.after_inference.
Proof.
  apply (mixed_precision_diffusers_not_implemented _ _ _ _ _ Demo.mixed_with_dataset).
  - reflexivity.
  - reflexivity.
  - reflexivity.
  - unfold provides. vm_compute. discriminate.
  - reflexivity.
Defined.

(** C5 as stated fails: with the dictionary exactly
    [{quant_mode: "nf4_f8e4m3"}] and the library inferred as "diffusers",
    the pass stops earlier, on the missing dataset, with a [ValueError]. *)
Lemma mixed_without_dataset_value_error :
  fst (_run_for_config (Demo.libs "diffusers" Demo.one_model) None Demo.model
         (Demo.config None (Some Demo.mixed_only)) "out" (start Demo.empty))
  = Raised (ValueError dataset_required)
  /\ forall m,
       fst (_run_for_config (Demo.libs "diffusers" Demo.one_model) None Demo.model
              (Demo.config None (Some Demo.mixed_only)) "out" (start Demo.empty))
       <> Raised (NotImplementedError m).
Proof.
  assert (H : fst (_run_for_config (Demo.libs "diffusers" Demo.one_model) None Demo.model
         (Demo.config None (Some Demo.mixed_only)) "out" (start Demo.empty))
      = Raised (ValueError dataset_required)) by (vm_compute; reflexivity).
  split; [exact H|]. intros m. rewrite H. discriminate.
Qed.

(** C6: the code at the two inputs that show the check on quantization
    parameters is inverted.  With only smooth_quant_alpha provided, and
    neither weight_format nor quant_mode, nothing is raised and a plain
    export runs; with no quantization parameter at all
    ([{trust_remote_code: True}]) the pass raises the error that says some
    were provided. *)
Theorem quantization_parameter_check_inverted :
  fst (_run_for_config (Demo.libs "transformers" Demo.one_model) None Demo.model
         (Demo.config None (Some Demo.alpha_only)) "out" (start Demo.empty))
  = Returned (SingleModelHandler {| model_path := "out"; ov_model_attributes := VNone |})
  /\
  fst (_run_for_config (Demo.libs "transformers" Demo.one_model) None Demo.model
         (Demo.config None (Some Demo.trust_only)) "out" (start Demo.empty))
  = Raised (ValueError quantization_without_quant_mode).
Proof. split; vm_compute; reflexivity. Qed.

(** In general: with neither weight_format nor quant_mode and no compression
    parameter, the quantization path raises exactly when smooth_quant_alpha
    is not provided either. *)
Lemma select_ov_config_no_mode {W} (L : Libs W) self_args model config lib_name
    (q : Dict) (st : State W) :
  ov_quant_config config = Some q ->
  dict_truthy q = true ->
  get q "weight_format" = VNone ->
  get q "quant_mode" = VNone ->
  (forall k, In k compression_parameters -> get q k = VNone) ->
  select_ov_config L self_args model config lib_name st =
    if is_none (get q "smooth_quant_alpha")
    then (Raised (ValueError quantization_without_quant_mode), st)
    else (Returned VNone, st).
Proof.
  intros Hq Ht Hfmt Hmode Hnone. unfold select_ov_config.
  rewrite Hq, Ht, Hfmt, Hmode. simpl.
  assert (Hc := proj2 (no_compression_parameter_provided_true q) Hnone). rewrite Hc. simpl.
  unfold no_quantization_parameter_provided. simpl. rewrite !get_or_none.
  rewrite (Hnone "sym"), (Hnone "dataset"), (Hnone "num_samples") by (simpl; tauto).
  simpl. rewrite andb_true_r. destruct (is_none (get q "smooth_quant_alpha")); reflexivity.
Qed.

(** C7, amended. When a compression-shaping parameter is provided while
    weight_format and quant_mode are both unset, the pass fails with the
    [ValueError] whose message names the missing weight_format, and no
    export call has been made. *)
Theorem compression_parameter_without_format {W} (L : Libs W) self_args model config out
    (q : Dict) (k : string) (w : W) (lib_name : Val) (st1 : State W) :
  ov_quant_config config = Some q ->
  get q "weight_format" = VNone ->
  get q "quant_mode" = VNone ->
  In k compression_parameters ->
  provides q k ->
  resolve_lib_name L model (prepare_extra_args model config) (start w)
    = (Returned lib_name, st1) ->
  _run_for_config L self_args model config out (start w)
    = (Raised (ValueError compression_without_weight_format), st1)
  /\ mentions "weight_format" compression_without_weight_format = true
  /\ no_export_attempt st1.
Proof.
  intros Hq Hfmt Hmode Hk Hp Hlib. split; [|split].
  - apply (run_select_raises _ _ _ _ _ _ _ _ _ Hlib).
    unfold select_ov_config. rewrite Hq.
    rewrite (provides_truthy q k Hp), Hfmt, Hmode. simpl.
    by rewrite (no_compression_parameter_provided_false q k Hk Hp).
  - reflexivity.
  - eapply resolve_lib_name_no_export; [exact Hlib|apply no_export_attempt_start].
Qed.

Lemma compression_parameter_without_format_witness :
  _run_for_config (Demo.libs "transformers" Demo.one_model) None Demo.model
    (Demo.config None (Some Demo.ratio_only)) "out" (start Demo.empty)
  = (Raised (ValueError compression_without_weight_format),
     Demo.after_inference)
  /\ mentions "weight_format" compression_without_weight_format = true
  /\ no_export_attempt
       Demo.after_inference.
Proof.
  apply (compression_parameter_without_format (Demo.libs "transformers" Demo.one_model)
           None Demo.model _ "out" Demo.ratio_only "ratio" Demo.empty (VStr "transformers")).
  - reflexivity.
  - reflexivity.
  - reflexivity.
  - simpl. tauto.
  - unfold provides. vm_compute. discriminate.
  - reflexivity.
Defined.

(** C7 as stated fails: with ratio provided, weight_format unset but
    quant_mode set (and a dataset given), the pass raises nothing, runs the
    export and returns a handler. *)
Lemma compression_parameter_with_quant_mode_exports :
  fst (_run_for_config (Demo.libs "transformers" Demo.one_model) None Demo.model
         (Demo.config None (Some Demo.ratio_with_mode)) "out" (start Demo.empty))
  = Returned (SingleModelHandler {| model_path := "out"; ov_model_attributes := VNone |})
  /\ provides Demo.ratio_with_mode "ratio"
  /\ get Demo.ratio_with_mode "weight_format" = VNone
  /\ ~ no_export_attempt
        (snd (_run_for_config (Demo.libs "transformers" Demo.one_model) None Demo.model
                (Demo.config None (Some Demo.ratio_with_mode)) "out" (start Demo.empty))).
Proof.
  split; [vm_compute; reflexivity|]. split; [unfold provides; vm_compute; discriminate|].
  split; [reflexivity|].
  intros H. apply no_export_attempt_forallb in H. vm_compute in H. discriminate.
Qed.

(** C8. When quant_mode is set, weight_format is not, and no dataset is
    provided, the pass fails with the [ValueError] that says a dataset is
    required, and no export call has been made. *)
Theorem full_quantization_requires_dataset {W} (L : Libs W) self_args model config out
    (q : Dict) (w : W) (lib_name : Val) (st1 : State W) :
  ov_quant_config config = Some q ->
  provides q "quant_mode" ->
  get q "weight_format" = VNone ->
  get q "dataset" = VNone ->
  resolve_lib_name L model (prepare_extra_args model config) (start w)
    = (Returned lib_name, st1) ->
  _run_for_config L self_args model config out (start w)
    = (Raised (ValueError dataset_required), st1)
  /\ mentions "Dataset is required" dataset_required = true
  /\ no_export_attempt st1.
Proof.
  intros Hq Hmode Hfmt Hdata Hlib. split; [|split].
  - apply (run_select_raises _ _ _ _ _ _ _ _ _ Hlib).
    unfold select_ov_config. rewrite Hq.
    rewrite (provides_truthy q "quant_mode" Hmode), Hfmt.
    apply is_none_false in Hmode. rewrite Hmode. simpl.
    unfold full_quantization. by rewrite get_or_none, Hdata.
  - reflexivity.
  - eapply resolve_lib_name_no_export; [exact Hlib|apply no_export_attempt_start].
Qed.

Lemma full_quantization_requires_dataset_witness :
  _run_for_config (Demo.libs "transformers" Demo.one_model) None Demo.model
    (Demo.config None (Some Demo.mode_only)) "out" (start Demo.empty)
  = (Raised (ValueError dataset_required),
     Demo.after_inference)
  /\ mentions "Dataset is required" dataset_required = true
  /\ no_export_attempt
       Demo.after_inference.
Proof.
  apply (full_quantization_requires_dataset (Demo.libs "transformers" Demo.one_model)
           None Demo.model _ "out" Demo.mode_only Demo.empty (VStr "transformers")).
  - reflexivity.
  - unfold provides. vm_compute. discriminate.
  - reflexivity.
  - reflexivity.
  - reflexivity.
Defined.

(** ** Packaging the exported components *)

Lemma collect_components_spec (out : string) (attributes : Val) (cs : list string)
    (handlers : list OpenVINOModelHandler) (names : list string) :
  collect_components out attributes cs handlers names =
    (handlers ++ ((fun _ => {| model_path := out; ov_model_attributes := attributes |}) <$> cs),
     names ++ cs).
Proof.
  revert handlers names. induction cs as [|c cs IH]; intros handlers names; simpl.
  - by rewrite !app_nil_r.
  - rewrite IH, <- !app_assoc. reflexivity.
Qed.

Lemma all_exported_true (exported requested : list string) :
  forallb (fun component => bool_decide (component ∈ exported)) requested = true <->
  Forall (fun x => x ∈ exported) requested.
Proof.
  rewrite forallb_forall, Forall_forall. split; intros H x Hx.
  - apply list_elem_of_In in Hx. specialize (H x Hx). by apply bool_decide_eq_true in H.
  - apply bool_decide_eq_true, H. by apply list_elem_of_In.
Qed.

(** Once the export has returned, the pass is the packaging step. *)
Lemma run_after_convert {W} (L : Libs W) self_args model config out (st st1 : State W) :
  convert L self_args model config out st = (Returned tt, st1) ->
  _run_for_config L self_args model config out st = package L model config out st1.
Proof. intros Hc. unfold _run_for_config. run. by rewrite Hc. Qed.

(** The state in which the pass ends after listing the output directory. *)
Lemma package_components_yielded {W} (L : Libs W) model config out (st1 : State W)
    (entries cs : list string) (w2 : W) :
  answer L (iterdir out) (world st1) = (Returned entries, w2) ->
  yields config entries cs ->
  package L model config out st1 =
    ((if (length cs =? 1)%nat
      then Returned (SingleModelHandler {| model_path := out; ov_model_attributes := VNone |})
      else Returned (CompositeModelHandler
             ((fun _ => {| model_path := out; ov_model_attributes := model_attributes model |})
                <$> cs) cs)),
     {| world := w2; trace := trace st1 ++ [Called (iterdir out)] |}).
Proof.
  intros Hls Hy. unfold package. run. rewrite Hls.
  unfold yields in Hy. unfold returned_components.
  destruct (components config) as [[|c l]|].
  - subst cs. destruct (length (exported_models entries) =? 1)%nat; [reflexivity|].
    by rewrite collect_components_spec.
  - destruct Hy as [-> Hall]. apply all_exported_true in Hall. rewrite Hall.
    destruct (length (c :: l) =? 1)%nat; [reflexivity|].
    by rewrite collect_components_spec.
  - subst cs. destruct (length (exported_models entries) =? 1)%nat; [reflexivity|].
    by rewrite collect_components_spec.
Qed.

(** C1. After an export that leaves exactly one ".xml" file, with
    [components] unset or naming that one component, the pass returns a
    single handler on the output directory.  When the run yields two or more
    components, it returns a composite handler with one handler per
    component name, each on the same output directory, the names in the
    order of the components. *)
Theorem packaging_single_or_composite {W} (L : Libs W) self_args model config out
    (st st1 : State W) (entries : list string) (w2 : W) :
  convert L self_args model config out st = (Returned tt, st1) ->
  answer L (iterdir out) (world st1) = (Returned entries, w2) ->
  (forall f, xml_files entries = [f] ->
     components config = None \/ components config = Some [stem f] ->
     _run_for_config L self_args model config out st =
       (Returned (SingleModelHandler {| model_path := out; ov_model_attributes := VNone |}),
        {| world := w2; trace := trace st1 ++ [Called (iterdir out)] |}))
  /\
  (forall cs, yields config entries cs -> 2 <= length cs ->
     _run_for_config L self_args model config out st =
       (Returned (CompositeModelHandler
          ((fun _ => {| model_path := out; ov_model_attributes := model_attributes model |})
             <$> cs) cs),
        {| world := w2; trace := trace st1 ++ [Called (iterdir out)] |})).
Proof.
  intros Hc Hls. rewrite (run_after_convert _ _ _ _ _ _ _ Hc). split.
  - intros f Hf Hcs.
    assert (He : exported_models entries = [stem f]).
    { change (exported_models entries) with (stem <$> xml_files entries). by rewrite Hf. }
    rewrite (package_components_yielded L model config out st1 entries [stem f] w2 Hls).
    + reflexivity.
    + unfold yields. destruct Hcs as [-> | ->]; [by rewrite He|].
      split; [reflexivity|]. rewrite He. repeat constructor.
  - intros cs Hy Hlen.
    rewrite (package_components_yielded L model config out st1 entries cs w2 Hls Hy).
    destruct cs as [|a [|b cs]]; simpl in Hlen; try lia. reflexivity.
Qed.

Lemma packaging_single_or_composite_witness :
  fst (_run_for_config (Demo.libs "transformers" Demo.one_model) None Demo.model
         (Demo.config None None) "out" (start Demo.empty))
  = Returned (SingleModelHandler {| model_path := "out"; ov_model_attributes := VNone |})
  /\
  fst (_run_for_config (Demo.libs "transformers" Demo.two_models) None Demo.model
         (Demo.config None None) "out" (start Demo.empty))
  = Returned (CompositeModelHandler
      [{| model_path := "out"; ov_model_attributes := VNone |};
       {| model_path := "out"; ov_model_attributes := VNone |}]
      ["decoder_model"; "decoder_with_past_model"]).
Proof.
  split.
  - destruct (packaging_single_or_composite (Demo.libs "transformers" Demo.one_model)
                None Demo.model (Demo.config None None) "out" (start Demo.empty)
                (snd (convert (Demo.libs "transformers" Demo.one_model) None Demo.model
                        (Demo.config None None) "out" (start Demo.empty)))
                Demo.one_model {| Demo.dir := Demo.one_model; Demo.ov_quantization := VNone |})
      as [Hsingle _].
    + vm_compute. reflexivity.
    + vm_compute. reflexivity.
    + rewrite (Hsingle "openvino_model.xml").
      * reflexivity.
      * vm_compute. reflexivity.
      * left. reflexivity.
  - destruct (packaging_single_or_composite (Demo.libs "transformers" Demo.two_models)
                None Demo.model (Demo.config None None) "out" (start Demo.empty)
                (snd (convert (Demo.libs "transformers" Demo.two_models) None Demo.model
                        (Demo.config None None) "out" (start Demo.empty)))
                Demo.two_models {| Demo.dir := Demo.two_models; Demo.ov_quantization := VNone |})
      as [_ Hcomposite].
    + vm_compute. reflexivity.
    + vm_compute. reflexivity.
    + rewrite (Hcomposite ["decoder_model"; "decoder_with_past_model"]).
      * reflexivity.
      * vm_compute. reflexivity.
      * simpl. lia.
Defined.



(** C10. When [components] is unset and the export leaves no ".xml" file,
    the pass does not fail: it returns a composite handler with no
    component and no name. *)
Theorem no_xml_file_empty_composite {W} (L : Libs W) self_args model config out
    (st st1 : State W) (entries : list string) (w2 : W) :
  convert L self_args model config out st = (Returned tt, st1) ->
  answer L (iterdir out) (world st1) = (Returned entries, w2) ->
  components config = None ->
  xml_files entries = [] ->
  _run_for_config L self_args model config out st =
    (Returned (CompositeModelHandler [] []),
     {| world := w2; trace := trace st1 ++ [Called (iterdir out)] |}).
Proof.
  intros Hc Hls Hnone Hxml. rewrite (run_after_convert _ _ _ _ _ _ _ Hc).
  assert (He : exported_models entries = []).
  { change (exported_models entries) with (stem <$> xml_files entries). by rewrite Hxml. }
  rewrite (package_components_yielded L model config out st1 entries [] w2 Hls).
  - reflexivity.
  - unfold yields. by rewrite Hnone, He.
Qed.

Lemma no_xml_file_empty_composite_witness :
  fst (_run_for_config (Demo.libs "transformers" ["config.json"]) None Demo.model
         (Demo.config None None) "out" (start Demo.empty))
  = Returned (CompositeModelHandler [] []).
Proof.
  rewrite (no_xml_file_empty_composite (Demo.libs "transformers" ["config.json"])
             None Demo.model (Demo.config None None) "out" (start Demo.empty)
             (snd (convert (Demo.libs "transformers" ["config.json"]) None Demo.model
                     (Demo.config None None) "out" (start Demo.empty)))
             ["config.json"]
             {| Demo.dir := ["config.json"]; Demo.ov_quantization := VNone |}).
  - reflexivity.
  - vm_compute. reflexivity.
  - vm_compute. reflexivity.
  - reflexivity.
  - vm_compute. reflexivity.
Defined.

(** * Further properties of the pass *)

(** ** Dictionaries *)

Lemma get_insert_ne (d : Dict) (k k' : string) (v : Val) :
  k <> k' -> get (<[k:=v]> d) k' = get d k'.
Proof. intros Hne. unfold get. by rewrite lookup_insert_ne. Qed.

Lemma get_or_insert_ne (d : Dict) (k k' : string) (v dflt : Val) :
  k <> k' -> get_or (<[k:=v]> d) k' dflt = get_or d k' dflt.
Proof. intros Hne. unfold get_or. by rewrite lookup_insert_ne. Qed.

Lemma dict_truthy_insert (d : Dict) (k : string) (v : Val) :
  dict_truthy (<[k:=v]> d) = true.
Proof.
  destruct (dict_truthy (<[k:=v]> d)) eqn:E; [reflexivity|].
  apply dict_truthy_false in E. by apply insert_non_empty in E.
Qed.

(** ** The export arguments *)

(** X1. The export arguments are the user's [extra_args] with "device"
    always set to [config.device]; "trust_remote_code" is taken from the
    model's loading arguments only when the user wrote no such key (a key
    written with value [None] still wins); every other key is passed on as
    the user wrote it. *)
Theorem prepare_extra_args_entries (model : HfModelHandler) (config : Config) :
  prepare_extra_args model config !! "device" = Some (device config) /\
  prepare_extra_args model config !! "trust_remote_code" =
    match user_entry (extra_args config) "trust_remote_code" with
    | Some v => Some v
    | None => trust_remote_code <$> load_kwargs model
    end /\
  forall k, k <> "device" -> k <> "trust_remote_code" ->
    prepare_extra_args model config !! k = user_entry (extra_args config) k.
Proof.
  unfold prepare_extra_args, user_entry.
  set (base := match extra_args config with
               | Some d => if dict_truthy d then d else ∅
               | None => ∅
               end).
  assert (Hbase : forall k, base !! k = match extra_args config with
                                        | Some d => d !! k
                                        | None => None
                                        end).
  { intros k. subst base. destruct (extra_args config) as [d|]; [|apply lookup_empty].
    destruct (dict_truthy d) eqn:E; [reflexivity|].
    apply dict_truthy_false in E. by subst. }
  assert (Ht : <["device" := device config]> base !! "trust_remote_code"
               = base !! "trust_remote_code") by (by apply lookup_insert_ne).
  rewrite Ht, <- !Hbase.
  destruct (load_kwargs model) as [kw|], (base !! "trust_remote_code") as [t|] eqn:Et; simpl.
  all: repeat split.
  all: try (intros k Hd Ht').
  all: rewrite ?lookup_insert_eq, ?Hbase; try reflexivity.
  all: repeat (first [rewrite lookup_insert_ne by congruence | rewrite lookup_insert_eq]).
  all: rewrite ?Hbase, <- ?Hbase, ?Et; try reflexivity.
Qed.

(** ** The library name *)

(** X2. When no library is given, the name the pass settles on comes from
    one inference call and is never "sentence_transformers": that answer is
    turned into "transformers", any other is kept. *)
Theorem resolve_lib_name_inferred {W} (L : Libs W) model (extra_args : Dict)
    (st st1 : State W) (lib_name : Val) :
  get extra_args "library" = VNone ->
  resolve_lib_name L model extra_args st = (Returned lib_name, st1) ->
  exists s w1,
    answer L (infer_library_from_model_name_or_path (model_name_or_path model)) (world st)
      = (Returned s, w1) /\
    lib_name = VStr (if String.eqb s "sentence_transformers" then "transformers" else s) /\
    lib_name <> VStr "sentence_transformers" /\
    st1 = {| world := w1;
             trace := trace st ++
               [Called (infer_library_from_model_name_or_path (model_name_or_path model))] |}.
Proof.
  intros Hnone. unfold resolve_lib_name. rewrite Hnone. simpl. run.
  destruct (answer L _ (world st)) as [[s|e] w1]; [|discriminate].
  destruct (String.eqb s "sentence_transformers") eqn:E; intros [= <- <-];
    exists s, w1; rewrite E; repeat split; try discriminate.
  intros [= ->]. discriminate.
Qed.

Lemma resolve_lib_name_inferred_witness :
  exists s w1,
    answer (Demo.libs "sentence_transformers" Demo.one_model)
      (infer_library_from_model_name_or_path (model_name_or_path Demo.model))
      (world (start Demo.empty)) = (Returned s, w1) /\
    VStr "transformers"
      = VStr (if String.eqb s "sentence_transformers" then "transformers" else s) /\
    VStr "transformers" <> VStr "sentence_transformers" /\
    Demo.after_inference
      = {| world := w1;
           trace := trace (start Demo.empty) ++
             [Called (infer_library_from_model_name_or_path (model_name_or_path Demo.model))] |}.
Proof.
  apply (resolve_lib_name_inferred (Demo.libs "sentence_transformers" Demo.one_model)
           Demo.model ∅ (start Demo.empty) Demo.after_inference (VStr "transformers")).
  - reflexivity.
  - reflexivity.
Defined.

(** X3. A library the user gives is used as written, also when it is
    "sentence_transformers", and no inference call is made. *)
Theorem resolve_lib_name_given {W} (L : Libs W) model (extra_args : Dict) (st : State W) :
  get extra_args "library" <> VNone ->
  resolve_lib_name L model extra_args st = (Returned (get extra_args "library"), st).
Proof.
  intros Hgiven. unfold resolve_lib_name, getitem.
  apply is_none_false in Hgiven. rewrite Hgiven.
  unfold get in *. destruct (extra_args !! "library"); [reflexivity|discriminate].
Qed.

Lemma resolve_lib_name_given_witness :
  resolve_lib_name (Demo.libs "transformers" Demo.one_model) Demo.model
    Demo.extra_library_st (start Demo.empty)
  = (Returned (get Demo.extra_library_st "library"), start Demo.empty)
  /\ get Demo.extra_library_st "library" = VStr "sentence_transformers".
Proof.
  split; [|reflexivity].
  apply (resolve_lib_name_given (Demo.libs "transformers" Demo.one_model)).
  vm_compute. discriminate.
Defined.

(** ** The builders, continued *)

(** X4. The dictionaries the two builders return always have the same keys,
    fourteen for [prep_wc_config] and seven for [prep_q_config], whatever
    the input holds: a parameter the user left out is present with its
    default. *)
Theorem builders_fixed_keys (quant_cfg default_cfg : Dict) :
  dom (prep_wc_config quant_cfg default_cfg) = list_to_set wc_config_keys /\
  dom (prep_q_config quant_cfg) = list_to_set q_config_keys.
Proof.
  unfold prep_wc_config, prep_q_config. rewrite !dom_list_to_map_L. split; reflexivity.
Qed.

(** X5. For a weight format other than "int8", [prep_wc_config] uses 4 bits
    and keeps a non-zero float ratio; a ratio that is missing, [None] or
    zero is replaced by the ratio of the default configuration. *)
Theorem prep_wc_config_ratio (quant_cfg default_cfg : Dict) :
  eq_str (get quant_cfg "weight_format") "int8" = false ->
  prep_wc_config quant_cfg default_cfg !! "bits" = Some (VInt 4) /\
  (forall r, get quant_cfg "ratio" = VFloat r -> ~ (r == 0)%Q ->
     prep_wc_config quant_cfg default_cfg !! "ratio" = Some (VFloat r)) /\
  (get quant_cfg "ratio" = VNone \/
   (exists r, get quant_cfg "ratio" = VFloat r /\ (r == 0)%Q) ->
     prep_wc_config quant_cfg default_cfg !! "ratio" = Some (get default_cfg "ratio")).
Proof.
  intros Hfmt. unfold prep_wc_config. rewrite Hfmt. cbv iota.
  split; [reflexivity|]. split.
  - intros r Hr Hnz.
    change (Some (or_ (get quant_cfg "ratio") (get default_cfg "ratio")) = Some (VFloat r)).
    rewrite Hr. unfold or_. simpl.
    destruct (Qeq_bool r 0) eqn:E; [|reflexivity].
    apply Qeq_bool_iff in E. contradiction.
  - intros H.
    change (Some (or_ (get quant_cfg "ratio") (get default_cfg "ratio"))
            = Some (get default_cfg "ratio")).
    destruct H as [-> | (r & -> & Hz)]; unfold or_; simpl; [reflexivity|].
    apply Qeq_bool_iff in Hz. by rewrite Hz.
Qed.

Lemma prep_wc_config_ratio_witness :
  prep_wc_config Demo.int4_zero_ratio {[ "ratio" := VFloat 1 ]} !! "bits" = Some (VInt 4) /\
  prep_wc_config Demo.int4_zero_ratio {[ "ratio" := VFloat 1 ]} !! "ratio" = Some (VFloat 1) /\
  prep_wc_config Demo.int4_with_ratio {[ "ratio" := VFloat 1 ]} !! "ratio"
    = Some (VFloat (4 # 5)).
Proof.
  destruct (prep_wc_config_ratio Demo.int4_zero_ratio {[ "ratio" := VFloat 1 ]})
    as (Hbits & _ & Hzero); [reflexivity|].
  destruct (prep_wc_config_ratio Demo.int4_with_ratio {[ "ratio" := VFloat 1 ]})
    as (_ & Hkeep & _); [reflexivity|].
  split; [exact Hbits|]. split.
  - apply Hzero. right. exists 0%Q. split; reflexivity.
  - apply (Hkeep (4 # 5)%Q); [reflexivity|]. intros H. discriminate H.
Defined.

(** X6. [prep_q_config] reads six keys of the quantization dictionary and
    nothing else: two dictionaries that agree on quant_mode, sym, dataset,
    num_samples, smooth_quant_alpha and trust_remote_code give the same
    result, so compression parameters such as ratio are ignored. *)
Theorem prep_q_config_inputs (q1 q2 : Dict) :
  (forall k, In k q_config_inputs -> q1 !! k = q2 !! k) ->
  prep_q_config q1 = prep_q_config q2.
Proof.
  intros Hagree. unfold prep_q_config, get, get_or.
  rewrite (Hagree "quant_mode"), (Hagree "sym"), (Hagree "dataset"),
    (Hagree "num_samples"), (Hagree "smooth_quant_alpha"), (Hagree "trust_remote_code")
    by (simpl; tauto).
  reflexivity.
Qed.

Lemma prep_q_config_inputs_witness :
  prep_q_config Demo.mode_with_ratio = prep_q_config Demo.mode_only.
Proof.
  apply prep_q_config_inputs. intros k Hk. simpl in Hk.
  repeat (destruct Hk as [<-|Hk]; [vm_compute; reflexivity|]). destruct Hk.
Defined.

(** ** The quantization path, continued *)

Lemma get_lookup (d : Dict) (k : string) (v : Val) :
  get d k = v -> v <> VNone -> d !! k = Some v.
Proof. unfold get. destruct (d !! k); simpl; congruence. Qed.

Lemma prep_wc_config_dataset (q default_cfg : Dict) :
  get_or (prep_wc_config q default_cfg) "dataset" VNone = get q "dataset".
Proof. reflexivity. Qed.

Ltac agree H q :=
  repeat match goal with
         | |- context [q !! ?k] => rewrite (H k) by (simpl; tauto)
         end.

Lemma weight_compression_inputs {W} (L : Libs W) model (q1 q2 : Dict) (st : State W) :
  (forall k, In k weight_path_inputs -> q1 !! k = q2 !! k) ->
  weight_compression L model q1 st = weight_compression L model q2 st.
Proof.
  intros Hagree.
  assert (Hc : no_compression_parameter_provided q1 = no_compression_parameter_provided q2).
  { unfold no_compression_parameter_provided, get_or. agree Hagree q1. reflexivity. }
  assert (Hp : prep_wc_config q1 (_DEFAULT_4BIT_CONFIG L)
               = prep_wc_config q2 (_DEFAULT_4BIT_CONFIG L)).
  { unfold prep_wc_config, get, get_or. agree Hagree q1. reflexivity. }
  unfold weight_compression. rewrite Hc, Hp. unfold get, get_or. agree Hagree q1.
  reflexivity.
Qed.

(** X7. Once weight_format is set, the selection looks only at
    weight_format, the twelve compression parameters and trust_remote_code:
    two quantization dictionaries that agree on these select the same path
    with the same arguments, so quant_mode and smooth_quant_alpha are
    ignored. *)
Theorem weight_format_takes_precedence {W} (L : Libs W) self_args model config1 config2
    lib_name (q1 q2 : Dict) (st : State W) :
  ov_quant_config config1 = Some q1 ->
  ov_quant_config config2 = Some q2 ->
  provides q1 "weight_format" ->
  (forall k, In k weight_path_inputs -> q1 !! k = q2 !! k) ->
  select_ov_config L self_args model config1 lib_name st
  = select_ov_config L self_args model config2 lib_name st.
Proof.
  intros Hq1 Hq2 Hp Hagree.
  assert (Hwf : get q1 "weight_format" = get q2 "weight_format").
  { unfold get. by rewrite (Hagree "weight_format") by (simpl; tauto). }
  assert (Hp2 : provides q2 "weight_format") by (unfold provides; by rewrite <- Hwf).
  unfold select_ov_config. rewrite Hq1, Hq2.
  rewrite (provides_truthy _ _ Hp), (provides_truthy _ _ Hp2), <- Hwf.
  apply is_none_false in Hp. rewrite Hp. simpl.
  destruct (hashable (get q1 "weight_format")); simpl; [|reflexivity].
  destruct (eq_str (get q1 "weight_format") "fp16" || _).
  - unfold getitem. rewrite (Hagree "weight_format") by (simpl; tauto). reflexivity.
  - by apply weight_compression_inputs.
Qed.

Lemma weight_format_takes_precedence_witness :
  select_ov_config (Demo.libs "transformers" Demo.one_model) None Demo.model
    (Demo.config None (Some Demo.int8_with_ratio_and_mode)) (VStr "transformers")
    (start Demo.empty)
  = select_ov_config (Demo.libs "transformers" Demo.one_model) None Demo.model
      (Demo.config None (Some Demo.int8_with_ratio)) (VStr "transformers")
      (start Demo.empty).
Proof.
  apply (weight_format_takes_precedence _ _ _ _ _ _
           Demo.int8_with_ratio_and_mode Demo.int8_with_ratio).
  - reflexivity.
  - reflexivity.
  - unfold provides. vm_compute. discriminate.
  - intros k Hk. simpl in Hk.
    repeat (destruct Hk as [<-|Hk]; [vm_compute; reflexivity|]). destruct Hk.
Defined.

(** X8. The library name bears on the selection only for the four mixed
    modes: with any other quant_mode, or none, two library names select the
    same path, so full quantization is not refused for diffusers. *)
Theorem lib_name_only_for_mixed {W} (L : Libs W) self_args model config
    (lib1 lib2 : Val) (st : State W) :
  ~ (exists s, field (ov_quant_config config) "quant_mode" = VStr s
               /\ In s mixed_quant_modes) ->
  select_ov_config L self_args model config lib1 st
  = select_ov_config L self_args model config lib2 st.
Proof.
  intros Hmixed. unfold select_ov_config.
  destruct (ov_quant_config config) as [q|]; [|reflexivity]. simpl in Hmixed.
  assert (Hin : in_strs (get q "quant_mode") mixed_quant_modes = false).
  { destruct (in_strs (get q "quant_mode") mixed_quant_modes) eqn:E; [|reflexivity].
    apply in_strs_true in E. contradiction. }
  unfold full_quantization. rewrite Hin. reflexivity.
Qed.

Lemma lib_name_only_for_mixed_witness :
  select_ov_config (Demo.libs "diffusers" Demo.one_model) None Demo.model
    (Demo.config None (Some Demo.ratio_with_mode)) (VStr "diffusers") (start Demo.empty)
  = select_ov_config (Demo.libs "diffusers" Demo.one_model) None Demo.model
      (Demo.config None (Some Demo.ratio_with_mode)) (VStr "transformers")
      (start Demo.empty).
Proof.
  apply lib_name_only_for_mixed. simpl.
  intros (s & Hs & Hin). vm_compute in Hs. injection Hs as <-.
  simpl in Hin. repeat (destruct Hin as [Hin|Hin]; [discriminate|]). destruct Hin.
Defined.

(** X9. With a weight format other than "fp16" and "fp32", and either a
    format other than "int4" or some compression parameter provided, the
    configuration comes from [prep_wc_config]: the selection is the single
    call of [OVConfig] on it, with trust_remote_code added exactly when a
    dataset is provided, and the model's default int4 configuration is not
    asked for. *)
Theorem weight_compression_generic_builder {W} (L : Libs W) self_args model config lib_name
    (q : Dict) (s : string) (st : State W) :
  ov_quant_config config = Some q ->
  get q "weight_format" = VStr s ->
  s <> "fp16" -> s <> "fp32" ->
  s <> "int4" \/ (exists k, In k compression_parameters /\ provides q k) ->
  select_ov_config L self_args model config lib_name st =
    call L (OVConfig {[ "quantization_config" := VDict
      (if negb (is_none (get q "dataset"))
       then <["trust_remote_code" := get_or q "trust_remote_code" (VBool false)]>
              (prep_wc_config q (_DEFAULT_4BIT_CONFIG L))
       else prep_wc_config q (_DEFAULT_4BIT_CONFIG L)) ]}) st.
Proof.
  intros Hq Hfmt H16 H32 Hgeneric. unfold select_ov_config. rewrite Hq.
  assert (Ht : dict_truthy q = true).
  { apply (provides_truthy q "weight_format"). unfold provides. rewrite Hfmt. discriminate. }
  rewrite Ht, Hfmt. simpl.
  apply String.eqb_neq in H16, H32. rewrite H16, H32. simpl.
  unfold weight_compression. rewrite Hfmt.
  assert (Hsel : no_compression_parameter_provided q && eq_str (VStr s) "int4" = false).
  { destruct Hgeneric as [H4 | (k & Hk & Hp)].
    - apply String.eqb_neq in H4. simpl. rewrite H4. apply andb_false_r.
    - by rewrite (no_compression_parameter_provided_false q k Hk Hp). }
  rewrite Hsel. run. rewrite prep_wc_config_dataset. reflexivity.
Qed.

Lemma weight_compression_generic_builder_witness :
  select_ov_config (Demo.libs "transformers" Demo.one_model) None Demo.model
    (Demo.config None (Some Demo.int4_with_ratio)) (VStr "transformers") (start Demo.empty)
  = call (Demo.libs "transformers" Demo.one_model)
      (OVConfig {[ "quantization_config" := VDict
         (prep_wc_config Demo.int4_with_ratio
            (_DEFAULT_4BIT_CONFIG (Demo.libs "transformers" Demo.one_model))) ]})
      (start Demo.empty).
Proof.
  rewrite (weight_compression_generic_builder _ _ _ _ _ Demo.int4_with_ratio "int4").
  - reflexivity.
  - reflexivity.
  - reflexivity.
  - discriminate.
  - discriminate.
  - right. exists "ratio". split; [simpl; tauto|]. unfold provides. vm_compute. discriminate.
Defined.

(** X10. With weight format "fp16" or "fp32" the selection is the single
    call [OVConfig(dtype=weight_format)]: no quantization configuration is
    built and every other entry of the dictionary is ignored. *)
Theorem cast_only_path {W} (L : Libs W) self_args model config lib_name
    (q : Dict) (s : string) (st : State W) :
  ov_quant_config config = Some q ->
  get q "weight_format" = VStr s ->
  s = "fp16" \/ s = "fp32" ->
  select_ov_config L self_args model config lib_name st
  = call L (OVConfig {[ "dtype" := VStr s ]}) st.
Proof.
  intros Hq Hfmt Hs. unfold select_ov_config. rewrite Hq.
  assert (Hne : VStr s <> VNone) by discriminate.
  assert (Ht : dict_truthy q = true).
  { apply (provides_truthy q "weight_format"). unfold provides. by rewrite Hfmt. }
  rewrite Ht, Hfmt. unfold getitem. rewrite (get_lookup q _ _ Hfmt Hne).
  destruct Hs as [-> | ->]; reflexivity.
Qed.

Lemma cast_only_path_witness :
  select_ov_config (Demo.libs "transformers" Demo.one_model) None Demo.model
    (Demo.config None (Some Demo.fp16_with_ratio)) (VStr "transformers") (start Demo.empty)
  = call (Demo.libs "transformers" Demo.one_model) (OVConfig {[ "dtype" := VStr "fp16" ]})
      (start Demo.empty).
Proof.
  apply (cast_only_path _ _ _ _ _ Demo.fp16_with_ratio "fp16").
  - reflexivity.
  - reflexivity.
  - left. reflexivity.
Defined.

(** X11. A non-empty quantization dictionary with neither weight_format nor
    quant_mode gets through the selection only when it provides
    smooth_quant_alpha and no compression parameter; then no quantization is
    configured.  In every other case the selection raises a [ValueError].
    No library call is made either way. *)
Theorem unset_modes_outcome {W} (L : Libs W) self_args model config lib_name
    (q : Dict) (st : State W) :
  ov_quant_config config = Some q ->
  q <> ∅ ->
  get q "weight_format" = VNone ->
  get q "quant_mode" = VNone ->
  ((forall k, In k compression_parameters -> get q k = VNone)
   /\ provides q "smooth_quant_alpha" ->
   select_ov_config L self_args model config lib_name st = (Returned VNone, st)) /\
  (~ ((forall k, In k compression_parameters -> get q k = VNone)
      /\ provides q "smooth_quant_alpha") ->
   exists m, select_ov_config L self_args model config lib_name st
             = (Raised (ValueError m), st)).
Proof.
  intros Hq Hne Hfmt Hmode.
  assert (Ht : dict_truthy q = true).
  { destruct (dict_truthy q) eqn:E; [reflexivity|]. by apply dict_truthy_false in E. }
  destruct (no_compression_parameter_provided q) eqn:Hc.
  - assert (Hall := proj1 (no_compression_parameter_provided_true q) Hc).
    rewrite (select_ov_config_no_mode L self_args model config lib_name q st Hq Ht Hfmt
               Hmode Hall).
    split.
    + intros [_ Hp]. apply is_none_false in Hp. by rewrite Hp.
    + intros Hnot. destruct (is_none (get q "smooth_quant_alpha")) eqn:Ea; [eauto|].
      exfalso. apply Hnot. split; [exact Hall|]. by apply is_none_false.
  - split.
    + intros [Hall _].
      assert (Hc' := proj2 (no_compression_parameter_provided_true q) Hall). congruence.
    + intros _. exists compression_without_weight_format.
      unfold select_ov_config. by rewrite Hq, Ht, Hfmt, Hmode, Hc.
Qed.

Lemma unset_modes_outcome_witness :
  select_ov_config (Demo.libs "transformers" Demo.one_model) None Demo.model
    (Demo.config None (Some Demo.alpha_and_trust)) (VStr "transformers") (start Demo.empty)
  = (Returned VNone, start Demo.empty).
Proof.
  destruct (unset_modes_outcome (Demo.libs "transformers" Demo.one_model) None Demo.model
              (Demo.config None (Some Demo.alpha_and_trust)) (VStr "transformers")
              Demo.alpha_and_trust (start Demo.empty)) as [Hpass _].
  - reflexivity.
  - intros H. apply dict_truthy_false in H. vm_compute in H. discriminate.
  - reflexivity.
  - reflexivity.
  - apply Hpass. split.
    + intros k Hk. simpl in Hk.
      repeat (destruct Hk as [<-|Hk]; [vm_compute; reflexivity|]). destruct Hk.
    + unfold provides. vm_compute. discriminate.
Defined.

(** X12. For a mixed mode on a library other than diffusers, with a dataset
    provided, the mode is cut at its underscore into a weight type ("nf4" or
    "int4") and an activation type ("f8e4m3" or "f8e5m2"); the selection is
    the single call of [OVConfig] on the pair of configurations built by
    [prep_wc_config] and [prep_q_config] with these types as "dtype", and
    num_samples, dataset and trust_remote_code read from [self.args], not
    from the quantization dictionary. *)
Theorem mixed_precision_config {W} (L : Libs W) args model config lib_name
    (q : Dict) (s : string) (st : State W) :
  ov_quant_config config = Some q ->
  get q "weight_format" = VNone ->
  get q "quant_mode" = VStr s ->
  In s mixed_quant_modes ->
  provides q "dataset" ->
  eq_str lib_name "diffusers" = false ->
  exists wc_dtype q_dtype,
    s = (wc_dtype ++ "_" ++ q_dtype)%string /\
    In wc_dtype ["nf4"; "int4"] /\ In q_dtype ["f8e4m3"; "f8e5m2"] /\
    select_ov_config L (Some args) model config lib_name st =
      call L (OVConfig {[ "quantization_config" := VDict (list_to_map [
        ("weight_quantization_config",
           VDict (<["dtype" := VStr wc_dtype]> (prep_wc_config q (_DEFAULT_4BIT_CONFIG L))));
        ("full_quantization_config", VDict (<["dtype" := VStr q_dtype]> (prep_q_config q)));
        ("num_samples", args_num_samples args);
        ("dataset", args_dataset args);
        ("trust_remote_code", args_trust_remote_code args) ]) ]}) st.
Proof.
  intros Hq Hfmt Hmode Hin Hdata Hlib.
  assert (Hne : VStr s <> VNone) by discriminate.
  assert (Hsel : select_ov_config L (Some args) model config lib_name st
                 = full_quantization L (Some args) lib_name q st).
  { unfold select_ov_config.
    by rewrite Hq, (provides_truthy q "dataset" Hdata), Hfmt, Hmode. }
  rewrite Hsel. unfold full_quantization, getitem.
  apply is_none_false in Hdata.
  rewrite get_or_none, Hdata, Hmode, Hlib, (get_lookup q _ _ Hmode Hne).
  simpl in Hin. destruct Hin as [<-|[<-|[<-|[<-|[]]]]].
  - exists "nf4", "f8e4m3". repeat split; simpl; tauto.
  - exists "nf4", "f8e5m2". repeat split; simpl; tauto.
  - exists "int4", "f8e4m3". repeat split; simpl; tauto.
  - exists "int4", "f8e5m2". repeat split; simpl; tauto.
Qed.

Lemma mixed_precision_config_witness :
  exists wc_dtype q_dtype,
    "nf4_f8e4m3" = (wc_dtype ++ "_" ++ q_dtype)%string /\
    In wc_dtype ["nf4"; "int4"] /\ In q_dtype ["f8e4m3"; "f8e5m2"] /\
    select_ov_config (Demo.libs "transformers" Demo.one_model)
      (Some {| args_num_samples := VInt 8; args_dataset := VStr "wikitext2";
               args_trust_remote_code := VBool false |})
      Demo.model (Demo.config None (Some Demo.mixed_with_dataset)) (VStr "transformers")
      (start Demo.empty) =
      call (Demo.libs "transformers" Demo.one_model)
        (OVConfig {[ "quantization_config" := VDict (list_to_map [
          ("weight_quantization_config",
             VDict (<["dtype" := VStr wc_dtype]>
                      (prep_wc_config Demo.mixed_with_dataset
                         (_DEFAULT_4BIT_CONFIG (Demo.libs "transformers" Demo.one_model)))));
          ("full_quantization_config",
             VDict (<["dtype" := VStr q_dtype]> (prep_q_config Demo.mixed_with_dataset)));
          ("num_samples", VInt 8);
          ("dataset", VStr "wikitext2");
          ("trust_remote_code", VBool false) ]) ]}) (start Demo.empty).
Proof.
  apply (mixed_precision_config (Demo.libs "transformers" Demo.one_model)
           {| args_num_samples := VInt 8; args_dataset := VStr "wikitext2";
              args_trust_remote_code := VBool false |}
           Demo.model (Demo.config None (Some Demo.mixed_with_dataset)) (VStr "transformers")
           Demo.mixed_with_dataset "nf4_f8e4m3" (start Demo.empty)).
  - reflexivity.
  - reflexivity.
  - reflexivity.
  - simpl. tauto.
  - unfold provides. vm_compute. discriminate.
  - reflexivity.
Defined.

(** ** File names *)

Lemma length_append (s t : string) :
  String.length (s ++ t)%string = (String.length s + String.length t)%nat.
Proof. induction s as [|a s IH]; simpl; [reflexivity|by rewrite IH]. Qed.

Lemma substring_all (s : string) : String.substring 0 (String.length s) s = s.
Proof. induction s as [|a s IH]; simpl; [reflexivity|by rewrite IH]. Qed.

Lemma substring_append_l (s t : string) :
  String.substring 0 (String.length s) (s ++ t)%string = s.
Proof.
  induction s as [|a s IH]; simpl.
  - by destruct t.
  - by rewrite IH.
Qed.

Lemma substring_append_r (s t : string) (n : nat) :
  String.substring (String.length s) n (s ++ t)%string = String.substring 0 n t.
Proof. induction s as [|a s IH]; simpl; [reflexivity|exact IH]. Qed.

Lemma substring_split (s : string) (i : nat) :
  (i <= String.length s)%nat ->
  s = (String.substring 0 i s ++ String.substring i (String.length s - i) s)%string.
Proof.
  revert i. induction s as [|a s IH]; intros i Hi; simpl in Hi.
  - assert (i = 0%nat) as -> by lia. reflexivity.
  - destruct i as [|i]; simpl.
    + by rewrite substring_all.
    + change (String a s = String a (String.substring 0 i s
                ++ String.substring i (String.length s - i) s)%string).
      f_equal. apply IH. lia.
Qed.

Lemma rfind_dot_xml (c : string) : rfind "." (c ++ ".xml")%string = Some (String.length c).
Proof. induction c as [|a c IH]; simpl; [reflexivity|by rewrite IH]. Qed.

(** A name made of a non-empty stem and ".xml" is cut between the two. *)
Lemma cut_xml (c : string) :
  c <> "" -> cut (c ++ ".xml")%string = Some (String.length c).
Proof.
  intros Hc. unfold cut. rewrite rfind_dot_xml, length_append. simpl String.length.
  destruct c as [|a c]; [congruence|]. simpl String.length.
  replace ((0 <? S (String.length c)) && (S (String.length c) <? S (String.length c) + 4 - 1))%nat
    with true; [reflexivity|].
  symmetry. apply andb_true_iff. split; apply Nat.ltb_lt; lia.
Qed.

(** A name with suffix ".xml" is its stem followed by ".xml", and the stem is
    not empty. *)
Lemma suffix_xml_inv (name : string) :
  suffix name = ".xml" -> name = (stem name ++ ".xml")%string /\ stem name <> "".
Proof.
  unfold suffix, stem, cut. destruct (rfind "." name) as [i|]; [|discriminate].
  destruct ((0 <? i) && (i <? String.length name - 1))%nat eqn:E; [|discriminate].
  apply andb_true_iff in E as [H0 Hi]. apply Nat.ltb_lt in H0, Hi.
  intros Hs. split.
  - rewrite <- Hs. apply substring_split. lia.
  - destruct name as [|a name]; simpl in Hi; [lia|].
    destruct i as [|i]; [lia|]. simpl. discriminate.
Qed.

(** X13. A name is among the exported components exactly when it is not
    empty and the output directory holds an entry of that name followed by
    ".xml". *)
Theorem exported_models_files (entries : list string) (c : string) :
  c ∈ exported_models entries <-> c <> "" /\ (c ++ ".xml")%string ∈ entries.
Proof.
  unfold exported_models. rewrite list_elem_of_fmap. split.
  - intros (name & -> & Hin). apply list_elem_of_filter in Hin as [Hs Hin].
    apply suffix_xml_inv in Hs as [Hname Hne]. split; [exact Hne|]. by rewrite <- Hname.
  - intros [Hne Hin]. exists (c ++ ".xml")%string.
    assert (Hcut := cut_xml c Hne). split.
    + unfold stem. rewrite Hcut. by rewrite substring_append_l.
    + apply list_elem_of_filter. split; [|exact Hin].
      unfold suffix. rewrite Hcut, length_append, substring_append_r.
      replace (String.length c + String.length ".xml" - String.length c)%nat with 4%nat
        by (simpl; lia).
      reflexivity.
Qed.

Example exported_models_hidden : exported_models [".xml"; "model.xml."; "model.XML"] = [].
Proof. vm_compute. reflexivity. Qed.

(** ** What a run returns *)

(** The two shapes of a packaged result. *)
Lemma package_returned {W} (L : Libs W) model config out (st1 st' : State W)
    (h : ModelHandler) :
  package L model config out st1 = (Returned h, st') ->
  (h = SingleModelHandler {| model_path := out; ov_model_attributes := VNone |}
   \/ exists cs, length cs <> 1%nat /\
        h = CompositeModelHandler
              ((fun _ => {| model_path := out;
                            ov_model_attributes := model_attributes model |}) <$> cs) cs)
  /\ st' = {| world := world st'; trace := trace st1 ++ [Called (iterdir out)] |}.
Proof.
  unfold package, returned_components. run.
  destruct (answer L (iterdir out) (world st1)) as [[entries|e] w2]; [|discriminate].
  destruct (components config) as [[|c l]|];
    [|destruct (forallb _ (c :: l)); [|discriminate]|].
  all: match goal with
       | |- context [(length ?cs =? 1)%nat] =>
           destruct (length cs =? 1)%nat eqn:E;
           [ intros [= <- <-]; split; [by left|reflexivity]
           | rewrite collect_components_spec; intros [= <- <-]; split; [|reflexivity];
             right; exists cs; split; [by apply Nat.eqb_neq|reflexivity] ]
       end.
Qed.

(** X14. Whatever the libraries answer, a handler the pass returns refers to
    [output_model_path]: a single handler without attributes, or a composite
    with as many handlers as names, never exactly one, each handler on the
    output path with the attributes of the input model. *)
Theorem returned_handlers_on_output_path {W} (L : Libs W) self_args model config out
    (st st' : State W) (h : ModelHandler) :
  _run_for_config L self_args model config out st = (Returned h, st') ->
  match h with
  | SingleModelHandler o => model_path o = out /\ ov_model_attributes o = VNone
  | CompositeModelHandler hs names =>
      length hs = length names /\ length names <> 1%nat /\
      Forall (fun o => model_path o = out
                       /\ ov_model_attributes o = model_attributes model) hs
  end.
Proof.
  unfold _run_for_config. run.
  destruct (convert L self_args model config out st) as [[[]|e] st1]; [|discriminate].
  intros H. apply package_returned in H as [[-> | (cs & Hlen & ->)] _].
  - by split.
  - rewrite length_fmap. repeat split; [exact Hlen|].
    apply Forall_fmap, Forall_forall. intros x _. by split.
Qed.

Lemma returned_handlers_on_output_path_witness :
  match CompositeModelHandler
          [{| model_path := "out"; ov_model_attributes := VNone |};
           {| model_path := "out"; ov_model_attributes := VNone |}]
          ["decoder_model"; "decoder_with_past_model"] with
  | SingleModelHandler o => model_path o = "out" /\ ov_model_attributes o = VNone
  | CompositeModelHandler hs names =>
      length hs = length names /\ length names <> 1%nat /\
      Forall (fun o => model_path o = "out"
                       /\ ov_model_attributes o = model_attributes Demo.model) hs
  end.
Proof.
  apply (returned_handlers_on_output_path (Demo.libs "transformers" Demo.two_models) None
           Demo.model (Demo.config None None) "out" (start Demo.empty)
           (snd (_run_for_config (Demo.libs "transformers" Demo.two_models) None
                   Demo.model (Demo.config None None) "out" (start Demo.empty)))).
  vm_compute. reflexivity.
Defined.

(** ** The export *)

Ltac find_export :=
  apply Exists_app;
  first [ right; constructor; reflexivity | left; find_export ].

(** An export that returns has called one of the exporting functions. *)
Lemma export_model_exports {W} (L : Libs W) model (extra_args : Dict) lib_name ov_config out
    (st st1 : State W) :
  export_model L model extra_args lib_name ov_config out st = (Returned tt, st1) ->
  export_attempted st1.
Proof.
  unfold export_model, export_attempted, diffusers_model_cls. run.
  repeat match goal with
         | |- context [answer L ?c ?w] => destruct (answer L c w) as [[?|?] ?]; simpl
         | |- context [if ?b then _ else _] => destruct b; simpl
         end.
  all: intros H; inversion H; subst; clear H; simpl; find_export.
Qed.

(** X15. A run that returns a handler has made at least one exporting call
    ([from_pretrained], [save_pretrained] or the generic export) and its
    last call is the listing of the output directory: the pass never
    packages a directory it has not just exported to. *)
Theorem returned_after_export {W} (L : Libs W) self_args model config out
    (st st' : State W) (h : ModelHandler) :
  _run_for_config L self_args model config out st = (Returned h, st') ->
  exists calls,
    trace st' = calls ++ [Called (iterdir out)] /\
    Exists (fun e => is_export e = true) calls.
Proof.
  unfold _run_for_config, convert. run.
  destruct (resolve_lib_name L model _ st) as [[lib_name|e] s1]; [|discriminate].
  destruct (select_ov_config L self_args model config lib_name s1) as [[ov_config|e] s2];
    [|discriminate].
  destruct (export_model L model _ lib_name ov_config out s2) as [[[]|e] s3] eqn:Hexp;
    [|discriminate].
  intros H. apply package_returned in H as [_ Hst].
  exists (trace s3). split.
  - rewrite Hst. reflexivity.
  - exact (export_model_exports _ _ _ _ _ _ _ _ Hexp).
Qed.

Lemma returned_after_export_witness :
  exists calls,
    trace (snd (_run_for_config (Demo.libs "transformers" Demo.one_model) None Demo.model
                  (Demo.config None None) "out" (start Demo.empty)))
      = calls ++ [Called (iterdir "out")] /\
    Exists (fun e => is_export e = true) calls.
Proof.
  apply (returned_after_export (Demo.libs "transformers" Demo.one_model) None Demo.model
           (Demo.config None None) "out" (start Demo.empty) _
           (SingleModelHandler {| model_path := "out"; ov_model_attributes := VNone |})).
  vm_compute. reflexivity.
Defined.

(** X16. Without a quantization dictionary (unset or empty) the pass always
    takes the generic export, for every library and every task: after the
    library name is settled it infers the task, ignores the answer, and
    calls the export function with [generic_export_kwargs]; no [OVConfig] is
    built and no model class is loaded. *)
Theorem plain_export_without_quantization {W} (L : Libs W) self_args model config out
    (st : State W) :
  ov_quant_config config = None \/ ov_quant_config config = Some ∅ ->
  convert L self_args model config out st =
    (lib_name ← resolve_lib_name L model (prepare_extra_args model config);
     call L (infer_task (get_or (prepare_extra_args model config) "task" (VStr "auto"))
               (model_name_or_path model) lib_name);;
     call L (export_optimum_intel (model_name_or_path model) out
               (generic_export_kwargs (prepare_extra_args model config) lib_name VNone))) st.
Proof.
  intros Hq. unfold convert. run.
  destruct (resolve_lib_name L model _ st) as [[lib_name|e] s1]; [|reflexivity].
  assert (Hsel : select_ov_config L self_args model config lib_name s1 = (Returned VNone, s1)).
  { unfold select_ov_config. destruct Hq as [-> | ->]; reflexivity. }
  rewrite Hsel. unfold export_model. run. simpl.
  destruct (answer L _ (world s1)) as [[task|e] w1]; [|reflexivity].
  rewrite !andb_false_r. reflexivity.
Qed.

Lemma plain_export_without_quantization_witness :
  convert (Demo.libs "diffusers" Demo.one_model) None Demo.model
    (Demo.config None (Some ∅)) "out" (start Demo.empty)
  = (Returned tt,
     {| world := {| Demo.dir := Demo.one_model; Demo.ov_quantization := VNone |};
        trace := [Called (infer_library_from_model_name_or_path "gpt2");
                  Called (infer_task (VStr "auto") "gpt2" (VStr "diffusers"));
                  Called (export_optimum_intel "gpt2" "out"
                            (generic_export_kwargs {[ "device" := VStr "cpu" ]}
                               (VStr "diffusers") VNone))] |}).
Proof.
  rewrite (plain_export_without_quantization (Demo.libs "diffusers" Demo.one_model)).
  - vm_compute. reflexivity.
  - right. reflexivity.
Defined.

(** X17. The keyword arguments of the generic export never hold "library",
    "disable_stateful" or "disable_convert_tokenizer"; they always hold the
    library name, the chosen [ov_config], and the flags "stateful" and
    "convert_tokenizer" as the negations of the two "disable" entries, even
    over entries of the same name the user wrote; all other entries are
    passed on unchanged. *)
Theorem generic_export_kwargs_entries (extra_args : Dict) (lib_name ov_config : Val) :
  generic_export_kwargs extra_args lib_name ov_config !! "library" = None /\
  generic_export_kwargs extra_args lib_name ov_config !! "disable_stateful" = None /\
  generic_export_kwargs extra_args lib_name ov_config !! "disable_convert_tokenizer" = None /\
  generic_export_kwargs extra_args lib_name ov_config !! "library_name" = Some lib_name /\
  generic_export_kwargs extra_args lib_name ov_config !! "ov_config" = Some ov_config /\
  generic_export_kwargs extra_args lib_name ov_config !! "stateful"
    = Some (VBool (negb (truthy (get_or extra_args "disable_stateful" (VBool false))))) /\
  generic_export_kwargs extra_args lib_name ov_config !! "convert_tokenizer"
    = Some (VBool (negb (truthy
              (get_or extra_args "disable_convert_tokenizer" (VBool false))))) /\
  forall k,
    ~ In k ["library"; "disable_stateful"; "disable_convert_tokenizer"; "library_name";
            "ov_config"; "stateful"; "convert_tokenizer"] ->
    generic_export_kwargs extra_args lib_name ov_config !! k = extra_args !! k.
Proof.
  unfold generic_export_kwargs. cbv zeta. unfold get_or.
  repeat split.
  8: { intros k Hk. simpl in Hk.
       repeat (first [rewrite lookup_delete_ne by (intros <-; apply Hk; auto 10)
                     | rewrite lookup_insert_ne by (intros <-; apply Hk; auto 10)]).
       reflexivity. }
  all: repeat (first [rewrite lookup_delete_eq | rewrite lookup_insert_eq
                     | rewrite lookup_delete_ne by discriminate
                     | rewrite lookup_insert_ne by discriminate]).
  all: reflexivity.
Qed.

Lemma generic_export_kwargs_entries_witness :
  generic_export_kwargs Demo.extra_stateful (VStr "transformers") VNone !! "stateful"
    = Some (VBool false) /\
  generic_export_kwargs Demo.extra_stateful (VStr "transformers") VNone !! "task"
    = Some (VStr "auto").
Proof.
  destruct (generic_export_kwargs_entries Demo.extra_stateful (VStr "transformers") VNone)
    as (_ & _ & _ & _ & _ & Hstateful & _ & Hother).
  split.
  - rewrite Hstateful. reflexivity.
  - rewrite (Hother "task").
    + reflexivity.
    + simpl. intros H. repeat (destruct H as [H|H]; [discriminate|]). destruct H.
Defined.

Lemma prepare_extra_args_entries_witness :
  prepare_extra_args Demo.trusting_model (Demo.config_extra Demo.extra_device_gpu) !! "device"
    = Some (VStr "cpu") /\
  prepare_extra_args Demo.trusting_model (Demo.config_extra Demo.extra_device_gpu)
    !! "trust_remote_code" = Some VNone /\
  prepare_extra_args Demo.trusting_model (Demo.config_extra Demo.extra_device_gpu) !! "task"
    = Some (VStr "text-generation") /\
  prepare_extra_args Demo.trusting_model (Demo.config None None) !! "trust_remote_code"
    = Some (VBool true).
Proof.
  destruct (prepare_extra_args_entries Demo.trusting_model
              (Demo.config_extra Demo.extra_device_gpu)) as (Hdev & Htrust & Hother).
  destruct (prepare_extra_args_entries Demo.trusting_model (Demo.config None None))
    as (_ & Htrust' & _).
  split; [exact Hdev|]. split; [rewrite Htrust; reflexivity|].
  split; [|rewrite Htrust'; reflexivity].
  rewrite (Hother "task"); [reflexivity|discriminate|discriminate].
Defined.

(** X18. On the diffusers route (library "diffusers", quantization with a
    dataset), a pipeline class that is not one of the six known ones, or a
    pipeline configuration without "_class_name", makes the pass fail with a
    not-implemented error that shows the class name, after four read-only
    calls and before any model is loaded or written. *)
Theorem diffusers_unknown_pipeline {W} (L : Libs W) model (extra_args : Dict)
    (ov_config quant_config dataset : Val) (task : string) (diffusers_config : Dict)
    (out : string) (st : State W) (w1 w2 w3 w4 : W) :
  truthy ov_config = true ->
  answer L (getattr ov_config "quantization_config") (world st)
    = (Returned quant_config, w1) ->
  truthy quant_config = true ->
  answer L (getattr quant_config "dataset") w1 = (Returned dataset, w2) ->
  dataset <> VNone ->
  answer L (infer_task (get_or extra_args "task" (VStr "auto")) (model_name_or_path model)
              (VStr "diffusers")) w2 = (Returned task, w3) ->
  answer L (DiffusionPipeline_load_config (model_name_or_path model)) w3
    = (Returned diffusers_config, w4) ->
  ~ (exists s, get diffusers_config "_class_name" = VStr s /\ In s diffusers_pipelines) ->
  export_model L model extra_args (VStr "diffusers") ov_config out st =
    (Raised (NotImplementedError
               [Lit "Quantization isn't supported for class ";
                Fmt (get diffusers_config "_class_name"); Lit "."]),
     {| world := w4;
        trace := trace st ++
          [Called (getattr ov_config "quantization_config");
           Called (getattr quant_config "dataset");
           Called (infer_task (get_or extra_args "task" (VStr "auto"))
                     (model_name_or_path model) (VStr "diffusers"));
           Called (DiffusionPipeline_load_config (model_name_or_path model))] |}).
Proof.
  intros Hov Hqc Htq Hds Hdata Htask Hcfg Hunknown.
  unfold export_model. run. rewrite Hov, Hqc. simpl. rewrite Htq. simpl. rewrite Hds. simpl.
  rewrite Htask. simpl. apply is_none_false in Hdata. rewrite Hdata. simpl.
  rewrite Hcfg. simpl. unfold diffusers_model_cls. run.
  change (get_or diffusers_config "_class_name" VNone)
    with (get diffusers_config "_class_name").
  assert (Hno : forall s, In s diffusers_pipelines ->
                  eq_str (get diffusers_config "_class_name") s = false).
  { intros s Hs. destruct (eq_str (get diffusers_config "_class_name") s) eqn:E;
      [|reflexivity].
    exfalso. apply Hunknown. exists s. split; [|exact Hs].
    destruct (get diffusers_config "_class_name"); simpl in E; try discriminate.
    apply String.eqb_eq in E. by subst. }
  rewrite !Hno by (simpl; tauto).
  rewrite <- !app_assoc. reflexivity.
Qed.

Lemma diffusers_unknown_pipeline_witness :
  fst (export_model (Demo.libs "diffusers" Demo.one_model) Demo.model ∅ (VStr "diffusers")
         (VObj 1) "out" (start Demo.quantizing))
  = Raised (NotImplementedError
              [Lit "Quantization isn't supported for class "; Fmt VNone; Lit "."])
  /\ no_export_attempt
       (snd (export_model (Demo.libs "diffusers" Demo.one_model) Demo.model ∅
               (VStr "diffusers") (VObj 1) "out" (start Demo.quantizing))).
Proof.
  rewrite (diffusers_unknown_pipeline (Demo.libs "diffusers" Demo.one_model) Demo.model ∅
             (VObj 1) (VObj 4) (VStr "wikitext2") "text-generation" ∅ "out"
             (start Demo.quantizing) Demo.quantizing Demo.quantizing Demo.quantizing
             Demo.quantizing).
  - split; [reflexivity|]. apply no_export_attempt_forallb. vm_compute. reflexivity.
  - reflexivity.
  - reflexivity.
  - reflexivity.
  - reflexivity.
  - discriminate.
  - reflexivity.
  - reflexivity.
  - intros (s & Hs & _). vm_compute in Hs. discriminate.
Defined.

(** ** Calls of the selection *)

(** X19. Whatever the configuration and whatever the libraries answer, the
    selection of the quantization path makes at most two library calls
    ([get_default_int4_config] and [OVConfig]) and none of them exports: an
    error raised by the selection is raised before any export. *)
Theorem selection_never_exports {W} (L : Libs W) self_args model config lib_name
    (st st1 : State W) (r : Outcome Val) :
  select_ov_config L self_args model config lib_name st = (r, st1) ->
  exists calls,
    trace st1 = trace st ++ calls /\
    (length calls <= 2)%nat /\
    Forall (fun e => is_export e = false) calls.
Proof.
  unfold select_ov_config, weight_compression, full_quantization, getitem, split_quant_mode.
  run. intros H.
  repeat case_match; simplify_eq; simpl.
  all: first
    [ exists []; split; [by rewrite app_nil_r|]; split; [simpl; lia|constructor]
    | eexists [_]; split; [reflexivity|]; split; [simpl; lia|repeat constructor]
    | eexists [_; _]; split; [by rewrite <- app_assoc|]; split;
      [simpl; lia|repeat constructor] ].
Qed.

Lemma selection_never_exports_witness :
  exists calls,
    trace (snd (select_ov_config (Demo.libs "transformers" Demo.one_model) None Demo.model
                  (Demo.config None (Some Demo.int4_only)) (VStr "transformers")
                  (start Demo.empty)))
      = trace (start Demo.empty) ++ calls /\
    (length calls <= 2)%nat /\
    Forall (fun e => is_export e = false) calls.
Proof.
  apply (selection_never_exports (Demo.libs "transformers" Demo.one_model) None Demo.model
           (Demo.config None (Some Demo.int4_only)) (VStr "transformers") (start Demo.empty)
           _ (Returned (VObj 1))).
  vm_compute. reflexivity.
Defined.

(** X20. The export goes one way only: the calls it makes never include both
    the generic export function and the loading or saving of a model class,
    whatever the libraries answer and wherever it stops. *)
Theorem export_routes_exclusive {W} (L : Libs W) model (extra_args : Dict)
    (lib_name ov_config : Val) (out : string) (st st1 : State W) (r : Outcome unit) :
  export_model L model extra_args lib_name ov_config out st = (r, st1) ->
  exists calls,
    trace st1 = trace st ++ calls /\
    existsb is_generic_export calls && existsb is_class_export calls = false.
Proof.
  unfold export_model, diffusers_model_cls. run.
  repeat match goal with
         | |- context [answer L ?c ?w] => destruct (answer L c w) as [[?|?] ?]; simpl
         | |- context [if ?b then _ else _] => destruct b; simpl
         end.
  all: intros [= <- <-]; simpl.
  all: eexists; split; [rewrite <- ?app_assoc; simpl; reflexivity|reflexivity].
Qed.

Lemma export_routes_exclusive_witness :
  exists calls,
    trace (snd (export_model (Demo.libs "transformers" Demo.one_model) Demo.model ∅
                  (VStr "transformers") (VObj 1) "out" (start Demo.quantizing)))
      = trace (start Demo.quantizing) ++ calls /\
    existsb is_generic_export calls && existsb is_class_export calls = false.
Proof.
  apply (export_routes_exclusive (Demo.libs "transformers" Demo.one_model) Demo.model ∅
           (VStr "transformers") (VObj 1) "out" (start Demo.quantizing) _ (Returned tt)).
  vm_compute. reflexivity.
Defined.
